(** * SimulatedRobot: ground-truth world state and team-relative frames

    A shallow embedding of [Src/Libs/SimulatedNao/SimulatedRobot.cpp].

    Conventions of the embedding:
    - [float] values are idealised as real numbers ([R]); rounding, NaN and
      infinities are not modelled.  Comparisons of floats become the decidable
      comparisons of [R].
    - [unsigned] timestamps are integers in [0, 2^32) and their subtraction
      wraps around ([usub]).  [int] player numbers are integers ([Z]).
    - A [SimRobot::Object*] is an [Object]: an identity plus the full scene
      name.  The process-wide [SimulatedRobot::ball] pointer together with the
      body it points to is an [option Body].
    - The [mutable] members written by the [const] method [getWorldState] and
      the simulator state it commands are threaded explicitly: the method
      returns the snapshot, the updated object, the updated ball body and the
      list of external calls it made ([Event]). *)

From Stdlib Require Import Reals Lra Lia ZArith List String Ascii Bool.
Import ListNotations.

Open Scope R_scope.

(** ** Scalars and Eigen vectors *)

Definition Reqb (a b : R) : bool := if Req_dec_T a b then true else false.
Definition Rleb (a b : R) : bool := if Rle_dec a b then true else false.

Record Vector2f := mkVector2f { v2x : R; v2y : R }.
Record Vector3f := mkVector3f { v3x : R; v3y : R; v3z : R }.

Module Vec2.
Definition Zero : Vector2f := mkVector2f 0 0.
Definition eqb (a b : Vector2f) : bool :=
  Reqb (v2x a) (v2x b) && Reqb (v2y a) (v2y b).
(* Eigen: [a != b] is "some coefficient differs" *)
Definition neqb (a b : Vector2f) : bool :=
  negb (Reqb (v2x a) (v2x b)) || negb (Reqb (v2y a) (v2y b)).
Definition scale (v : Vector2f) (k : R) : Vector2f :=
  mkVector2f (v2x v * k) (v2y v * k).
Definition neg (v : Vector2f) : Vector2f := mkVector2f (- v2x v) (- v2y v).
Definition add (a b : Vector2f) : Vector2f :=
  mkVector2f (v2x a + v2x b) (v2y a + v2y b).
Definition norm (v : Vector2f) : R := sqrt (v2x v * v2x v + v2y v * v2y v).
(** Modelled from the spec: the in-place [rotate] of B-Human's Eigen
    extension (Math/Eigen.h is not part of the sources): "rotate the
    native horizontal velocity vector by the current curve angle", the
    counter-clockwise plane rotation. *)
Definition rotate (v : Vector2f) (alpha : R) : Vector2f :=
  mkVector2f (cos alpha * v2x v - sin alpha * v2y v)
             (sin alpha * v2x v + cos alpha * v2y v).
End Vec2.

Module Vec3.
Definition Zero : Vector3f := mkVector3f 0 0 0.
Definition head2 (v : Vector3f) : Vector2f := mkVector2f (v3x v) (v3y v).
Definition sub (a b : Vector3f) : Vector3f :=
  mkVector3f (v3x a - v3x b) (v3y a - v3y b) (v3z a - v3z b).
(* [k * v] *)
Definition lscale (k : R) (v : Vector3f) : Vector3f :=
  mkVector3f (k * v3x v) (k * v3y v) (k * v3z v).
(* [v * k] *)
Definition scale (v : Vector3f) (k : R) : Vector3f :=
  mkVector3f (v3x v * k) (v3y v * k) (v3z v * k).
(* [v / k] *)
Definition div (v : Vector3f) (k : R) : Vector3f :=
  mkVector3f (v3x v / k) (v3y v / k) (v3z v / k).
(* [v.z() = c] *)
Definition setZ (v : Vector3f) (c : R) : Vector3f :=
  mkVector3f (v3x v) (v3y v) c.
(* [v.head<2>() *= k] *)
Definition scaleHead2 (v : Vector3f) (k : R) : Vector3f :=
  mkVector3f (v3x v * k) (v3y v * k) (v3z v).
(* [(Vector3f() << h, c).finished()] *)
Definition ofHead2 (h : Vector2f) (c : R) : Vector3f :=
  mkVector3f (v2x h) (v2y h) c.
End Vec3.

(** ** Angles and poses *)

(** An angle normaliser keeps the angle and may add whole turns.  The body of
    [Angle::normalize] (Math/Angle.h) is not part of the sources, so the
    functions that call it take it as a parameter; this is what the spec's
    "angle wraparound" allows it to do. *)
Definition preserves_angle (normalize : R -> R) : Prop :=
  forall a, exists k : Z, normalize a = a + IZR k * (2 * PI).

(** Two angles that differ by whole turns. *)
Definition same_angle (a b : R) : Prop :=
  exists k : Z, a = b + IZR k * (2 * PI).

Record Pose2f := mkPose2f { rotation : R; translation : Vector2f }.

(* [Pose2f(angle)] *)
Definition Pose2f_of_angle (a : R) : Pose2f := mkPose2f a Vec2.Zero.

(** Modelled from the spec: [Pose2f::operator+] (Math/Pose2f.h is not part
    of the sources).  "Rotate the reported pose by 180 degrees (compose the
    field-rotation convention with the raw pose)": the composition of the two
    rigid motions; the right operand's translation is carried into the left
    operand's frame and the rotations add up, the sum passing through the
    angle normaliser. *)
Definition Pose2f_add (normalize : R -> R) (a b : Pose2f) : Pose2f :=
  mkPose2f (normalize (rotation a + rotation b))
           (Vec2.add (Vec2.rotate (translation b) (rotation a)) (translation a)).

(** ** Unsigned 32-bit time stamps *)

Definition UINT_MOD : Z := 2 ^ 32.
Definition is_unsigned (t : Z) : Prop := (0 <= t < UINT_MOD)%Z.
(* [a - b] on [unsigned] *)
Definition usub (a b : Z) : Z := ((a - b) mod UINT_MOD)%Z.

(** ** Scene objects and the QString operations of [getNumber] *)

Record Object := mkObject { objId : nat; fullName : string }.

(* [QString::lastIndexOf(c)]: index of the last occurrence, -1 when absent *)
Fixpoint lastIndexOf_from (c : ascii) (s : string) (i : Z) (found : Z) : Z :=
  match s with
  | EmptyString => found
  | String d s' =>
      lastIndexOf_from c s' (i + 1)%Z (if Ascii.eqb d c then i else found)
  end.
Definition lastIndexOf (c : ascii) (s : string) : Z :=
  lastIndexOf_from c s 0%Z (-1)%Z.

(* [QString::remove(0, n)]: drops the first [n] characters, all of them when
   the string is shorter; a non-positive [n] removes nothing *)
Fixpoint drop_chars (n : nat) (s : string) : string :=
  match n, s with
  | O, _ => s
  | S n', EmptyString => EmptyString
  | S n', String _ s' => drop_chars n' s'
  end.
Definition remove0 (n : Z) (s : string) : string := drop_chars (Z.to_nat n) s.

(** A decimal reading of [QString::toInt] (Qt, outside the repository), for
    running the model on scene names: an optional sign and digits, 0 when the
    text is not a number or does not fit an [int]. *)
Definition digit_of (c : ascii) : option Z :=
  let n := nat_of_ascii c in
  if (48 <=? n)%nat && (n <=? 57)%nat then Some (Z.of_nat n - 48)%Z else None.
Fixpoint digits_value (s : string) (acc : Z) : option Z :=
  match s with
  | EmptyString => Some acc
  | String c s' =>
      match digit_of c with
      | Some d => digits_value s' (10 * acc + d)%Z
      | None => None
      end
  end.
Definition decimal_toInt (s : string) : Z :=
  let in_int (v : Z) := if ((- 2 ^ 31 <=? v) && (v <? 2 ^ 31))%Z then v else 0%Z in
  match s with
  | EmptyString => 0%Z
  | String c s' =>
      if Ascii.eqb c "-"%char then
        match s' with
        | EmptyString => 0%Z
        | _ => match digits_value s' 0 with Some v => in_int (- v)%Z | None => 0%Z end
        end
      else if Ascii.eqb c "+"%char then
        match s' with
        | EmptyString => 0%Z
        | _ => match digits_value s' 0 with Some v => in_int v | None => 0%Z end
        end
      else match digits_value s 0 with Some v => in_int v | None => 0%Z end
  end.

(** ** The simulator as seen by one call *)

(* a simulated body: position in metres, velocity as the core reports it *)
Record Body := mkBody { bodyPosition : Vector3f; bodyVelocity : Vector3f }.

(* the fields of [RoboCupCtrl::controller] that are read here *)
Record Controller := mkController { is2D : bool; simStepLength : R }.

Record World := mkWorld {
  controller : Controller;
  ball : option Body;                      (* [SimulatedRobot::ball] *)
  currentSystemTime : Z;                   (* [Time::getCurrentSystemTime()] *)
  getPose2f : Object -> bool * Pose2f;     (* upright flag and raw pose *)
  Random_normal : R -> R                   (* the sample [Random::normal] returns *)
}.

(* [SimRobotCore2D::compound] and [SimRobotCore2::compound] *)
Inductive ObjectKind := compound2D | compound3D.

(* the scene graph at construction: the children of the compound of a given
   name and kind, [None] when [resolveObject] finds nothing *)
Record Scene := mkScene { resolveObject : string -> ObjectKind -> option (list Object) }.

(* calls into the simulator and the random source, in program order *)
Inductive Event :=
| EvRandomNormal (stddev : R)
| EvSetVelocity (velo : Vector3f)
| EvMove (position : Vector3f)
| EvResetDynamics.

(** ** GroundTruthWorldState *)

Record GroundTruthPlayer := mkPlayer { number : Z; pose : Pose2f; upright : bool }.
Record GroundTruthBall := mkBall { position : Vector3f; velocity : Vector3f }.
Record GroundTruthWorldState := mkWorldState {
  ownTeamPlayers : list GroundTruthPlayer;
  opponentTeamPlayers : list GroundTruthPlayer;
  balls : list GroundTruthBall;
  ownPose : Pose2f
}.

(** ** The class *)

Record SimulatedRobot := mkSimulatedRobot {
  robot : Object;
  firstTeam : bool;
  robotNumber : Z;
  firstTeamRobots : list Object;
  secondTeamRobots : list Object;
  lastBallPosition : Vector3f;
  lastBallTime : Z;
  hadVelocity : bool;
  curveVel : R
}.

(* what a call of [getWorldState] leaves behind *)
Record Result := mkResult {
  worldState : GroundTruthWorldState;
  self' : SimulatedRobot;
  ball' : option Body;
  events : list Event
}.

(* the arguments [moveRobotPerTeam] hands to [moveRobot] *)
Record MoveRobotCall := mkMoveRobotCall {
  mr_pos : Vector3f; mr_rot : Vector3f; mr_changeRotation : bool; mr_resetDynamics : bool
}.

Section Model.

(** [QString::toInt] (Qt), the constant [robotsPerTeam] (SimulatedRobot.h)
    and [Angle::normalize] (Math/Angle.h) are declared outside the
    sources at hand. *)
Variable toInt : string -> Z.
Variable robotsPerTeam : Z.
Variable normalize : R -> R.

Definition getNumber (obj : Object) : Z :=
  let robotNumberString := fullName obj in
  let pos := lastIndexOf "."%char robotNumberString in
  toInt (remove0 (pos + 6) robotNumberString).

Definition isFirstTeam (obj : Object) : bool :=
  (getNumber obj <=? robotsPerTeam)%Z.

(* one of the two loops of the constructor, over the children of a group *)
Fixpoint parseGroup (robotNumber : Z) (children : list Object)
         (teams : list Object * list Object) : list Object * list Object :=
  match children with
  | [] => teams
  | child :: rest =>
      let number := getNumber child in
      let teams' :=
        if negb (number =? robotNumber)%Z then
          if (number <=? robotsPerTeam)%Z
          then (fst teams ++ [child], snd teams)
          else (fst teams, snd teams ++ [child])
        else teams in
      parseGroup robotNumber rest teams'
  end.

(** Modelled from the spec: the default member initialisers of the hidden
    ball state (SimulatedRobot.h is not part of the sources).  The state is
    "created lazily on first sample": a new object has no previous sample
    ([lastBallTime] zero), has seen no velocity and carries no curve. *)
Definition withFreshBallState (robot : Object) (firstTeam : bool) (robotNumber : Z)
           (firstTeamRobots secondTeamRobots : list Object) : SimulatedRobot :=
  mkSimulatedRobot robot firstTeam robotNumber firstTeamRobots secondTeamRobots
                   Vec3.Zero 0%Z false 0.

(** The constructor; [robot] is a pointer that is not null ([ASSERT]).  A
    group that does not resolve is dereferenced as a null pointer: no object
    is built. *)
Definition SimulatedRobot_new (c : Controller) (scene : Scene) (robot : Object)
  : option SimulatedRobot :=
  let firstTeam := isFirstTeam robot in
  let robotNumber := getNumber robot in
  let compoundType := if is2D c then compound2D else compound3D in
  match resolveObject scene "RoboCup.robots" compoundType with
  | None => None
  | Some group =>
      let teams := parseGroup robotNumber group ([], []) in
      match resolveObject scene "RoboCup.extras" compoundType with
      | None => None
      | Some group =>
          let teams := parseGroup robotNumber group teams in
          Some (withFreshBallState robot firstTeam robotNumber (fst teams) (snd teams))
      end
  end.

(* [setBall] overwrites the process-wide pointer *)
Definition setBall (w : World) (b : option Body) : World :=
  mkWorld (controller w) b (currentSystemTime w) (getPose2f w) (Random_normal w).

Definition getPosition (c : Controller) (obj : Body) : Vector2f :=
  let position := bodyPosition obj in
  Vec2.scale (mkVector2f (v3x position) (v3y position)) 1000.

Definition getPosition3D (c : Controller) (obj : Body) : Vector3f :=
  let position := bodyPosition obj in
  Vec3.scale (mkVector3f (v3x position) (v3y position)
                         (if is2D c then 0 else v3z position)) 1000.

(** Modelled from the spec: [getRobotPose] (virtual, implemented in the
    backend subclasses, not part of the sources): "the own robot's pose is
    computed by the same raw-to-canonical conversion". *)
Definition getRobotPose (self : SimulatedRobot) (w : World) : Pose2f :=
  let p := snd (getPose2f w (robot self)) in
  if firstTeam self then Pose2f_add normalize (Pose2f_of_angle PI) p else p.

(* what both player loops do once the number is set *)
Definition newGTPlayer (self : SimulatedRobot) (w : World) (number : Z)
           (obj : Object) : GroundTruthPlayer :=
  let '(upright, pose) := getPose2f w obj in
  let pose := if firstTeam self
              then Pose2f_add normalize (Pose2f_of_angle PI) pose else pose in
  mkPlayer number pose upright.

(* the ball block of [getWorldState]: the samples pushed, the object after
   the block, the ball body after the block, the calls made *)
Definition ballBlock (self : SimulatedRobot) (w : World)
  : list GroundTruthBall * SimulatedRobot * option Body * list Event :=
  match ball w with
  | None => ([], self, None, [])
  | Some b =>
      let c := controller w in
      let position := getPosition3D c b in
      let position := if is2D c then Vec3.setZ position 50 else position in
      let position := if firstTeam self then Vec3.scaleHead2 position (-1) else position in
      let currentTime := currentSystemTime w in
      let '(velocity, curveVel', b', evs) :=
        if negb (lastBallTime self =? 0)%Z && negb (lastBallTime self =? currentTime)%Z then
          let dt := IZR (usub currentTime (lastBallTime self)) in
          let velocity :=
            Vec3.div (Vec3.lscale 1000 (Vec3.sub position (lastBallPosition self))) dt in
          if negb (is2D c) then
            let velo := bodyVelocity b in
            let roll := negb (hadVelocity self)
                        && Vec2.neqb (Vec3.head2 velocity) Vec2.Zero in
            let sigma := 0.015 * dt / 1000 in
            let curveVel1 := if roll then Random_normal w sigma else curveVel self in
            let curveVel2 := if Vec2.eqb (Vec3.head2 velocity) Vec2.Zero
                             then 0 else curveVel1 in
            let direct := Vec2.rotate (Vec3.head2 velo) curveVel2 in
            let velo := mkVector3f (v2x direct) (v2y direct) (v3z velo) in
            (velocity, curveVel2, mkBody (bodyPosition b) velo,
             (if roll then [EvRandomNormal sigma] else []) ++ [EvSetVelocity velo])
          else (velocity, curveVel self, b, [])
        else (Vec3.Zero, curveVel self, b, []) in
      let gtBall := mkBall position velocity in
      ([gtBall],
       mkSimulatedRobot (robot self) (firstTeam self) (robotNumber self)
                        (firstTeamRobots self) (secondTeamRobots self)
                        position currentTime
                        (Vec2.neqb (Vec3.head2 velocity) Vec2.Zero) curveVel',
       Some b', evs)
  end.

Definition getWorldState (self : SimulatedRobot) (w : World) : Result :=
  let '(balls, self1, ball1, evs) := ballBlock self w in
  let ownPose := getRobotPose self w in
  let firstTeamPlayers :=
    map (fun obj => newGTPlayer self w (getNumber obj) obj) (firstTeamRobots self) in
  let secondTeamPlayers :=
    map (fun obj => newGTPlayer self w (getNumber obj - robotsPerTeam)%Z obj)
        (secondTeamRobots self) in
  mkResult
    (mkWorldState (if firstTeam self then firstTeamPlayers else secondTeamPlayers)
                  (if firstTeam self then secondTeamPlayers else firstTeamPlayers)
                  balls ownPose)
    self1 ball1 evs.

Definition getOdometryData (self : SimulatedRobot) (robotPose : Pose2f) : Pose2f :=
  if firstTeam self then Pose2f_add normalize (Pose2f_of_angle PI) robotPose
  else robotPose.

Definition moveRobotPerTeam (self : SimulatedRobot) (pos rot : Vector3f)
           (changeRotation resetDynamics : bool) : MoveRobotCall :=
  mkMoveRobotCall
    (if firstTeam self then Vec3.ofHead2 (Vec2.neg (Vec3.head2 pos)) (v3z pos) else pos)
    (if firstTeam self then Vec3.ofHead2 (Vec3.head2 rot) (normalize (v3z rot + PI)) else rot)
    changeRotation resetDynamics.

Definition moveBall (w : World) (pos : Vector3f) (resetDynamics : bool) : list Event :=
  match ball w with
  | None => []
  | Some _ =>
      let position := Vec3.scale pos 0.001 in
      EvMove position :: (if resetDynamics then [EvResetDynamics] else [])
  end.

Definition moveBallPerTeam (self : SimulatedRobot) (w : World) (pos : Vector3f)
           (resetDynamics : bool) : list Event :=
  moveBall w
    (if firstTeam self then Vec3.ofHead2 (Vec2.neg (Vec3.head2 pos)) (v3z pos) else pos)
    resetDynamics.

(* returns the flag and the value of the reference parameter afterwards *)
Definition getAbsoluteBallPosition (w : World) (ballPosition : Vector2f)
  : bool * Vector2f :=
  let ballPosition :=
    match ball w with
    | Some b => getPosition (controller w) b
    | None => ballPosition
    end in
  (match ball w with Some _ => true | None => false end, ballPosition).

(* returns the ball body afterwards *)
Definition applyBallFriction (w : World) (friction : R) : option Body :=
  match ball w with
  | Some b =>
      if negb (is2D (controller w)) then ball w
      else
        let ballVelocity := Vec3.head2 (bodyVelocity b) in
        let ballSpeed := Vec2.norm ballVelocity in
        let newBallSpeed := ballSpeed + friction * simStepLength (controller w) / 1000 in
        let ballVelocity :=
          if Rleb newBallSpeed 0 then Vec2.Zero
          else Vec2.scale ballVelocity (newBallSpeed / ballSpeed) in
        Some (mkBody (bodyPosition b)
                     (Vec3.ofHead2 ballVelocity (v3z (bodyVelocity b))))
  | None => ball w
  end.

(** *** Sequences of calls *)

(* successive calls of [getWorldState] on the same object, one world per call *)
Fixpoint run (self : SimulatedRobot) (calls : list World) : list Result :=
  match calls with
  | [] => []
  | w :: rest =>
      let r := getWorldState self w in
      r :: run (self' r) rest
  end.

End Model.

(** ** Notions used in the statements *)

(* the canonical ball position [getWorldState] reports for a ball body *)
Definition gtBallPosition (self : SimulatedRobot) (c : Controller) (b : Body) : Vector3f :=
  let position := getPosition3D c b in
  let position := if is2D c then Vec3.setZ position 50 else position in
  if firstTeam self then Vec3.scaleHead2 position (-1) else position.

(* the finite difference of the sampled branch *)
Definition sampledVelocity (self : SimulatedRobot) (w : World) (b : Body) : Vector3f :=
  Vec3.div
    (Vec3.lscale 1000
       (Vec3.sub (gtBallPosition self (controller w) b) (lastBallPosition self)))
    (IZR (usub (currentSystemTime w) (lastBallTime self))).

(* the children the constructor pushes to the first / second roster *)
Definition joinsFirst (toInt : string -> Z) (robotsPerTeam robotNumber : Z)
           (child : Object) : bool :=
  negb (getNumber toInt child =? robotNumber)%Z
  && (getNumber toInt child <=? robotsPerTeam)%Z.
Definition joinsSecond (toInt : string -> Z) (robotsPerTeam robotNumber : Z)
           (child : Object) : bool :=
  negb (getNumber toInt child =? robotNumber)%Z
  && negb (getNumber toInt child <=? robotsPerTeam)%Z.

(* the standard deviations passed to [Random::normal] during a call *)
Definition rolled (r : Result) : list R :=
  flat_map (fun e => match e with EvRandomNormal s => [s] | _ => [] end) (events r).

(* the horizontal velocities of the ball samples of a snapshot *)
Definition horizontalVelocities (r : Result) : list Vector2f :=
  map (fun g => Vec3.head2 (velocity g)) (balls (worldState r)).

(* the players of a snapshot that come from the first / second roster *)
Definition firstTeamPlayers (self : SimulatedRobot) (ws : GroundTruthWorldState) :=
  if firstTeam self then ownTeamPlayers ws else opponentTeamPlayers ws.
Definition secondTeamPlayers (self : SimulatedRobot) (ws : GroundTruthWorldState) :=
  if firstTeam self then opponentTeamPlayers ws else ownTeamPlayers ws.

(* the kind of compound the constructor asks the scene for *)
Definition compoundType (c : Controller) : ObjectKind :=
  if is2D c then compound2D else compound3D.

(* a call on the 3D backend with a ball in the scene, at a time stamp that is
   an [unsigned] value *)
Definition ball3D (w : World) : Prop :=
  ball w <> None /\ is2D (controller w) = false /\ is_unsigned (currentSystemTime w).

(* time stamps strictly increasing from one call to the next *)
Fixpoint increasing (ts : list Z) : Prop :=
  match ts with
  | t0 :: (t1 :: _) as rest => (t0 < t1)%Z /\ increasing rest
  | _ => True
  end.

(* a string without the character [c] *)
Fixpoint lacks (c : ascii) (s : string) : bool :=
  match s with
  | EmptyString => true
  | String d s' => negb (Ascii.eqb d c) && lacks c s'
  end.

(* the world a call of [applyBallFriction] leaves behind *)
Definition afterFriction (w : World) (friction : R) : World :=
  mkWorld (controller w) (applyBallFriction w friction) (currentSystemTime w)
          (getPose2f w) (Random_normal w).

(* [n] simulation steps, [applyBallFriction] called once in each *)
Fixpoint frictionSteps (n : nat) (w : World) (friction : R) : World :=
  match n with
  | O => w
  | S n' => frictionSteps n' (afterFriction w friction) friction
  end.

(* the speed of the ball of a world on the 2D backend, 0 without a ball *)
Definition ballSpeed2D (w : World) : R :=
  match ball w with
  | Some b => Vec2.norm (Vec3.head2 (bodyVelocity b))
  | None => 0
  end.

(* the velocities handed to [setVelocity] during a call *)
Definition velocitiesSet (r : Result) : list Vector3f :=
  flat_map (fun e => match e with EvSetVelocity v => [v] | _ => [] end) (events r).

(* the first time stamp of a sequence of calls is not before [t], or [t] is
   the zero of an object without a previous sample *)
Definition startsAfter (t : Z) (calls : list World) : Prop :=
  match calls with
  | w :: _ => (t < currentSystemTime w)%Z \/ t = 0%Z
  | [] => True
  end.

(** ** Sample scenes and calls *)

Module Sample.
Definition robotsPerTeam : Z := 5%Z.

(* a normaliser for angles at most one turn away from [-PI, PI) *)
Definition wrapOnce (a : R) : R :=
  if Rle_dec PI a then a - 2 * PI
  else if Rlt_dec a (- PI) then a + 2 * PI else a.

Definition robot1 := mkObject 1 "RoboCup.robots.robot1".
Definition robot2 := mkObject 2 "RoboCup.robots.robot2".
Definition robot6 := mkObject 6 "RoboCup.robots.robot6".
(* an extra that carries the number of [robot1] *)
Definition dummy1 := mkObject 11 "RoboCup.extras.robot1".

Definition scene : Scene :=
  mkScene (fun name _ =>
    if String.eqb name "RoboCup.robots" then Some [robot1; robot2; robot6]
    else if String.eqb name "RoboCup.extras" then Some [dummy1]
    else None).

Definition ctrl3D := mkController false 10.
Definition ctrl2D := mkController true 10.

Definition upright_at (p : Pose2f) : Object -> bool * Pose2f := fun _ => (true, p).
Definition origin : Pose2f := mkPose2f 0 Vec2.Zero.

(* a ball body at [x] metres on the x axis, at rest in the simulator *)
Definition ballAt (x : R) : Body := mkBody (mkVector3f x 0 0) Vec3.Zero.

(* every roll returns the standard deviation it was asked for *)
Definition world (c : Controller) (b : option Body) (t : Z) : World :=
  mkWorld c b t (upright_at origin) (fun sigma => sigma).

(* robot6 (second team) with the hidden ball state of a fresh object *)
Definition fresh : SimulatedRobot :=
  mkSimulatedRobot robot6 false 6%Z [robot1; robot2] [] Vec3.Zero 0%Z false 0.

(* first sample, the ball one metre further 100 ms later, and a third call
   that sees the same time stamp again *)
Definition calls : list World :=
  [ world ctrl3D (Some (ballAt 0)) 100; world ctrl3D (Some (ballAt 1)) 200;
    world ctrl3D (Some (ballAt 1)) 200 ].

(* the ball moves from the third call on and lies still at the last one *)
Definition moving : list World :=
  [ world ctrl3D (Some (ballAt 0)) 100; world ctrl3D (Some (ballAt 0)) 200;
    world ctrl3D (Some (ballAt 1)) 300; world ctrl3D (Some (ballAt 2)) 400;
    world ctrl3D (Some (ballAt 2)) 500 ].

(* robot1 (first team) *)
Definition first : SimulatedRobot :=
  mkSimulatedRobot robot1 true 1%Z [robot2] [robot6] Vec3.Zero 0%Z false 0.

(* a ball body rolling at 5 mm/s *)
Definition rolling : Body := mkBody (mkVector3f 0 0 0) (mkVector3f 3 4 0).

(* [fresh] after a first sample of the ball at the origin at 100 ms *)
Definition seen : SimulatedRobot :=
  mkSimulatedRobot robot6 false 6%Z [robot1; robot2] [] Vec3.Zero 100%Z false 0.

(* every robot stands upright at x = 1000 looking along the x axis *)
Definition posed : World :=
  mkWorld ctrl3D None 0%Z (upright_at (mkPose2f 0 (mkVector2f 1000 0)))
          (fun sigma => sigma).

(* the object the constructor builds for robot6 in [scene] *)
Definition built : SimulatedRobot :=
  withFreshBallState robot6 false 6%Z [robot1; robot2; dummy1] [].
End Sample.

(** ** Properties *)

Lemma Reqb_true (a b : R) : Reqb a b = true <-> a = b.
Proof. unfold Reqb; destruct (Req_dec_T a b); split; congruence. Qed.

Lemma Reqb_false (a b : R) : Reqb a b = false <-> a <> b.
Proof. unfold Reqb; destruct (Req_dec_T a b); split; congruence. Qed.

Lemma Rleb_true (a b : R) : Rleb a b = true <-> a <= b.
Proof. unfold Rleb; destruct (Rle_dec a b); split; congruence. Qed.

Lemma Rleb_false (a b : R) : Rleb a b = false <-> b < a.
Proof.
  unfold Rleb; destruct (Rle_dec a b); split; try congruence; intros; lra.
Qed.

Lemma Vec2_eqb_true (a b : Vector2f) : Vec2.eqb a b = true <-> a = b.
Proof.
  destruct a as [ax ay], b as [bx by']; unfold Vec2.eqb; simpl.
  rewrite andb_true_iff, !Reqb_true; split.
  - intros [-> ->]; reflexivity.
  - intros H; injection H; auto.
Qed.

Lemma Vec2_neqb_negb (a b : Vector2f) : Vec2.neqb a b = negb (Vec2.eqb a b).
Proof. unfold Vec2.neqb, Vec2.eqb; rewrite negb_andb; reflexivity. Qed.

Lemma Vec2_neqb_true (a b : Vector2f) : Vec2.neqb a b = true <-> a <> b.
Proof.
  rewrite Vec2_neqb_negb, negb_true_iff, <- not_true_iff_false, Vec2_eqb_true.
  reflexivity.
Qed.

Lemma Vec2_neqb_false (a b : Vector2f) : Vec2.neqb a b = false <-> a = b.
Proof.
  rewrite Vec2_neqb_negb, negb_false_iff, Vec2_eqb_true; reflexivity.
Qed.

Lemma usub_plain (a b : Z) :
  is_unsigned a -> is_unsigned b -> (b <= a)%Z -> usub a b = (a - b)%Z.
Proof.
  unfold is_unsigned, usub, UINT_MOD; intros Ha Hb Hle.
  apply Z.mod_small; lia.
Qed.

Lemma usub_nonzero (a b : Z) :
  is_unsigned a -> is_unsigned b -> a <> b -> usub a b <> 0%Z.
Proof.
  unfold is_unsigned, usub, UINT_MOD; intros Ha Hb Hne H.
  destruct (Z_le_gt_dec b a).
  - rewrite Z.mod_small in H by lia. lia.
  - replace (a - b)%Z with ((a - b + 2 ^ 32) + (-1) * 2 ^ 32)%Z in H by lia.
    rewrite Z.mod_add in H by lia.
    rewrite Z.mod_small in H by lia. lia.
Qed.

Section Properties.

Variable toInt : string -> Z.
Variable robotsPerTeam : Z.
Variable normalize : R -> R.

Local Abbreviation numberOf := (getNumber toInt).
Local Abbreviation worldStateAfter := (getWorldState toInt robotsPerTeam normalize).
Local Abbreviation runCalls := (run toInt robotsPerTeam normalize).

(** *** The ball block, branch by branch *)

Lemma getWorldState_ballBlock (self : SimulatedRobot) (w : World) :
  balls (worldState (worldStateAfter self w)) = fst (fst (fst (ballBlock self w)))
  /\ self' (worldStateAfter self w) = snd (fst (fst (ballBlock self w)))
  /\ ball' (worldStateAfter self w) = snd (fst (ballBlock self w))
  /\ events (worldStateAfter self w) = snd (ballBlock self w).
Proof.
  unfold getWorldState.
  destruct (ballBlock self w) as [[[bs s1] b1] evs]; simpl; auto.
Qed.

(* first sample or unchanged time stamp *)
Lemma ballBlock_held (self : SimulatedRobot) (w : World) (b : Body) :
  ball w = Some b ->
  lastBallTime self = 0%Z \/ lastBallTime self = currentSystemTime w ->
  ballBlock self w =
    ([mkBall (gtBallPosition self (controller w) b) Vec3.Zero],
     mkSimulatedRobot (robot self) (firstTeam self) (robotNumber self)
       (firstTeamRobots self) (secondTeamRobots self)
       (gtBallPosition self (controller w) b) (currentSystemTime w)
       false (curveVel self),
     Some b, []).
Proof.
  intros Hb Ht. unfold ballBlock. rewrite Hb.
  fold (gtBallPosition self (controller w) b).
  assert (E : negb (lastBallTime self =? 0)%Z
              && negb (lastBallTime self =? currentSystemTime w)%Z = false).
  { destruct Ht as [-> | ->].
    - reflexivity.
    - rewrite Z.eqb_refl, andb_false_r. reflexivity. }
  rewrite E. cbn -[gtBallPosition].
  unfold Vec2.neqb, Vec3.head2, Vec2.Zero, Vec3.Zero; cbn -[gtBallPosition].
  assert (R0eq : Reqb 0 0 = true) by (apply Reqb_true; reflexivity).
  rewrite R0eq. reflexivity.
Qed.

Lemma sampled_test (self : SimulatedRobot) (w : World) :
  lastBallTime self <> 0%Z -> lastBallTime self <> currentSystemTime w ->
  negb (lastBallTime self =? 0)%Z
  && negb (lastBallTime self =? currentSystemTime w)%Z = true.
Proof.
  intros H0 H1.
  apply Z.eqb_neq in H0, H1. rewrite H0, H1. reflexivity.
Qed.

(* a previous sample with another time stamp, 2D backend *)
Lemma ballBlock_sampled_2D (self : SimulatedRobot) (w : World) (b : Body) :
  ball w = Some b ->
  lastBallTime self <> 0%Z -> lastBallTime self <> currentSystemTime w ->
  is2D (controller w) = true ->
  ballBlock self w =
    ([mkBall (gtBallPosition self (controller w) b) (sampledVelocity self w b)],
     mkSimulatedRobot (robot self) (firstTeam self) (robotNumber self)
       (firstTeamRobots self) (secondTeamRobots self)
       (gtBallPosition self (controller w) b) (currentSystemTime w)
       (Vec2.neqb (Vec3.head2 (sampledVelocity self w b)) Vec2.Zero) (curveVel self),
     Some b, []).
Proof.
  intros Hb H0 H1 H2. unfold ballBlock. rewrite Hb.
  fold (gtBallPosition self (controller w) b).
  rewrite (sampled_test self w H0 H1), H2. reflexivity.
Qed.

(* a previous sample with another time stamp, 3D backend: the curve block *)
Lemma ballBlock_sampled_3D (self : SimulatedRobot) (w : World) (b : Body) :
  ball w = Some b ->
  lastBallTime self <> 0%Z -> lastBallTime self <> currentSystemTime w ->
  is2D (controller w) = false ->
  let velocity := sampledVelocity self w b in
  let sigma := 0.015 * IZR (usub (currentSystemTime w) (lastBallTime self)) / 1000 in
  let roll := negb (hadVelocity self) && Vec2.neqb (Vec3.head2 velocity) Vec2.Zero in
  let curve := if Vec2.eqb (Vec3.head2 velocity) Vec2.Zero then 0
               else if roll then Random_normal w sigma else curveVel self in
  let direct := Vec2.rotate (Vec3.head2 (bodyVelocity b)) curve in
  let velo := mkVector3f (v2x direct) (v2y direct) (v3z (bodyVelocity b)) in
  ballBlock self w =
    ([mkBall (gtBallPosition self (controller w) b) velocity],
     mkSimulatedRobot (robot self) (firstTeam self) (robotNumber self)
       (firstTeamRobots self) (secondTeamRobots self)
       (gtBallPosition self (controller w) b) (currentSystemTime w)
       (Vec2.neqb (Vec3.head2 velocity) Vec2.Zero) curve,
     Some (mkBody (bodyPosition b) velo),
     (if roll then [EvRandomNormal sigma] else []) ++ [EvSetVelocity velo]).
Proof.
  intros Hb H0 H1 H2. unfold ballBlock. rewrite Hb.
  fold (gtBallPosition self (controller w) b).
  rewrite (sampled_test self w H0 H1), H2. reflexivity.
Qed.

(* with a ball in the scene exactly one of the three branches is taken *)
Lemma ballBlock_cases (self : SimulatedRobot) (w : World) (b : Body) :
  ball w = Some b ->
  (lastBallTime self = 0%Z \/ lastBallTime self = currentSystemTime w)
  \/ (lastBallTime self <> 0%Z /\ lastBallTime self <> currentSystemTime w).
Proof.
  intros _.
  destruct (Z.eq_dec (lastBallTime self) 0); [left; left; assumption|].
  destruct (Z.eq_dec (lastBallTime self) (currentSystemTime w)); [left; right; assumption|].
  right; split; assumption.
Qed.

(** *** Ball list and ball velocity *)

(** C6: the ball list of a snapshot has exactly one entry when a ball is
    registered and is empty when none is; [getWorldState] is a total
    function, so the empty list is an ordinary result of the call. *)
Theorem balls_one_or_none (self : SimulatedRobot) (w : World) :
  List.length (balls (worldState (worldStateAfter self w)))
  = match ball w with Some _ => 1%nat | None => 0%nat end
  /\ (ball w = None -> balls (worldState (worldStateAfter self w)) = []).
Proof.
  destruct (getWorldState_ballBlock self w) as (Hballs & _).
  rewrite Hballs.
  destruct (ball w) as [b|] eqn:Hb.
  - split; [|discriminate].
    destruct (ballBlock_cases self w b Hb) as [Hheld | [H0 H1]].
    + rewrite (ballBlock_held self w b Hb Hheld). reflexivity.
    + destruct (is2D (controller w)) eqn:H2.
      * rewrite (ballBlock_sampled_2D self w b Hb H0 H1 H2). reflexivity.
      * rewrite (ballBlock_sampled_3D self w b Hb H0 H1 H2). reflexivity.
  - unfold ballBlock. rewrite Hb. split; [reflexivity | intros _; reflexivity].
Qed.

(** C1: with a ball registered, the reported velocity is
    1000 * (position - lastBallPosition) / (currentTime - lastBallTime) when
    [lastBallTime] is nonzero and differs from the current time, the
    subtraction being the one of [unsigned]; for time stamps in range that
    divisor is not zero, and it is the plain difference when the clock has
    not gone back.  On a first sample or an unchanged time stamp the
    reported velocity is the zero vector, whatever the positions. *)
Theorem ball_velocity_finite_difference
  (self : SimulatedRobot) (w : World) (b : Body) :
  ball w = Some b ->
  is_unsigned (lastBallTime self) -> is_unsigned (currentSystemTime w) ->
  exists gtBall,
    balls (worldState (worldStateAfter self w)) = [gtBall]
    /\ position gtBall = gtBallPosition self (controller w) b
    /\ (lastBallTime self <> 0%Z /\ lastBallTime self <> currentSystemTime w ->
        velocity gtBall
        = Vec3.div (Vec3.lscale 1000 (Vec3.sub (position gtBall) (lastBallPosition self)))
                   (IZR (usub (currentSystemTime w) (lastBallTime self)))
        /\ IZR (usub (currentSystemTime w) (lastBallTime self)) <> 0
        /\ ((lastBallTime self <= currentSystemTime w)%Z ->
            usub (currentSystemTime w) (lastBallTime self)
            = (currentSystemTime w - lastBallTime self)%Z))
    /\ (lastBallTime self = 0%Z \/ lastBallTime self = currentSystemTime w ->
        velocity gtBall = Vec3.Zero).
Proof.
  intros Hb Hl Hc.
  destruct (getWorldState_ballBlock self w) as (Hballs & _).
  rewrite Hballs.
  destruct (ballBlock_cases self w b Hb) as [Hheld | [H0 H1]].
  - rewrite (ballBlock_held self w b Hb Hheld).
    eexists; split; [reflexivity|]. cbn [position velocity].
    split; [reflexivity|]. split.
    + intros [N0 N1]. destruct Hheld; contradiction.
    + reflexivity.
  - assert (E : fst (fst (fst (ballBlock self w)))
                = [mkBall (gtBallPosition self (controller w) b)
                          (sampledVelocity self w b)]).
    { destruct (is2D (controller w)) eqn:H2.
      - rewrite (ballBlock_sampled_2D self w b Hb H0 H1 H2). reflexivity.
      - rewrite (ballBlock_sampled_3D self w b Hb H0 H1 H2). reflexivity. }
    rewrite E. eexists; split; [reflexivity|]. cbn [position velocity].
    split; [reflexivity|]. split.
    + intros _. split; [reflexivity|]. split.
      * apply not_0_IZR. apply usub_nonzero; auto.
      * intros Hle. apply usub_plain; auto.
    + intros [N | N]; contradiction.
Qed.

(** C10: [getAbsoluteBallPosition] returns true exactly when a ball is
    registered, and when it returns false the reference parameter still
    holds the value it was called with. *)
Theorem getAbsoluteBallPosition_flag (w : World) (ballPosition : Vector2f) :
  (fst (getAbsoluteBallPosition w ballPosition) = true <-> ball w <> None)
  /\ (fst (getAbsoluteBallPosition w ballPosition) = false ->
      snd (getAbsoluteBallPosition w ballPosition) = ballPosition).
Proof.
  unfold getAbsoluteBallPosition.
  destruct (ball w) as [b|]; simpl; split.
  - split; [discriminate | reflexivity].
  - discriminate.
  - split; [discriminate | intros H; contradiction H; reflexivity].
  - reflexivity.
Qed.

(** *** Rosters *)

Lemma parseGroup_filter (n : Z) (children first second : list Object) :
  parseGroup toInt robotsPerTeam n children (first, second)
  = (first ++ filter (joinsFirst toInt robotsPerTeam n) children,
     second ++ filter (joinsSecond toInt robotsPerTeam n) children).
Proof.
  revert first second.
  induction children as [|child rest IH]; intros first second; simpl.
  - rewrite !app_nil_r. reflexivity.
  - unfold joinsFirst, joinsSecond.
    destruct (getNumber toInt child =? n)%Z; simpl.
    + apply IH.
    + destruct (getNumber toInt child <=? robotsPerTeam)%Z; simpl;
        rewrite IH; rewrite <- app_assoc; reflexivity.
Qed.

Lemma SimulatedRobot_new_rosters (c : Controller) (scene : Scene) (owner : Object)
      (robots extras : list Object) :
  resolveObject scene "RoboCup.robots" (compoundType c) = Some robots ->
  resolveObject scene "RoboCup.extras" (compoundType c) = Some extras ->
  exists self,
    SimulatedRobot_new toInt robotsPerTeam c scene owner = Some self
    /\ robot self = owner
    /\ robotNumber self = numberOf owner
    /\ firstTeam self = isFirstTeam toInt robotsPerTeam owner
    /\ firstTeamRobots self
       = filter (joinsFirst toInt robotsPerTeam (numberOf owner)) (robots ++ extras)
    /\ secondTeamRobots self
       = filter (joinsSecond toInt robotsPerTeam (numberOf owner)) (robots ++ extras).
Proof.
  intros Hr He. unfold SimulatedRobot_new. fold (compoundType c). rewrite Hr, He.
  eexists; split; [reflexivity|]. cbn [robot robotNumber firstTeam firstTeamRobots secondTeamRobots].
  rewrite !parseGroup_filter. cbn [fst snd app].
  rewrite !filter_app. auto.
Qed.

(** C9, as the constructor has it: when both groups resolve an object is
    built; every child of "RoboCup.robots" and "RoboCup.extras" whose parsed
    number differs from the owning robot's number is in exactly one roster
    list, the first-team list if its number is at most [robotsPerTeam] and
    the second-team list otherwise, each list in enumeration order; a child
    whose parsed number equals the owner's is in neither list, and so the
    owning robot is in neither list. *)
Theorem rosters_by_number (c : Controller) (scene : Scene) (owner : Object)
        (robots extras : list Object) :
  resolveObject scene "RoboCup.robots" (compoundType c) = Some robots ->
  resolveObject scene "RoboCup.extras" (compoundType c) = Some extras ->
  exists self,
    SimulatedRobot_new toInt robotsPerTeam c scene owner = Some self
    /\ firstTeamRobots self
       = filter (joinsFirst toInt robotsPerTeam (numberOf owner)) (robots ++ extras)
    /\ secondTeamRobots self
       = filter (joinsSecond toInt robotsPerTeam (numberOf owner)) (robots ++ extras)
    /\ (forall child, In child (robots ++ extras) ->
        (numberOf child <> numberOf owner ->
         ((numberOf child <= robotsPerTeam)%Z ->
          In child (firstTeamRobots self) /\ ~ In child (secondTeamRobots self))
         /\ ((robotsPerTeam < numberOf child)%Z ->
             In child (secondTeamRobots self) /\ ~ In child (firstTeamRobots self)))
        /\ (numberOf child = numberOf owner ->
            ~ In child (firstTeamRobots self) /\ ~ In child (secondTeamRobots self)))
    /\ ~ In owner (firstTeamRobots self)
    /\ ~ In owner (secondTeamRobots self).
Proof.
  intros Hr He.
  destruct (SimulatedRobot_new_rosters c scene owner robots extras Hr He)
    as (self & Hnew & _ & _ & _ & Hf & Hs).
  exists self. split; [exact Hnew|]. split; [exact Hf|]. split; [exact Hs|].
  rewrite Hf, Hs.
  assert (Own : forall o, numberOf o = numberOf owner ->
                ~ In o (filter (joinsFirst toInt robotsPerTeam (numberOf owner)) (robots ++ extras))
                /\ ~ In o (filter (joinsSecond toInt robotsPerTeam (numberOf owner)) (robots ++ extras))).
  { intros o Ho. split; intros Hin; apply filter_In in Hin; destruct Hin as [_ Hin];
      unfold joinsFirst, joinsSecond in Hin; rewrite Ho, Z.eqb_refl in Hin; discriminate. }
  split; [|exact (Own owner eq_refl)].
  intros child Hin. split; [|apply Own].
  intros Hne. apply Z.eqb_neq in Hne. split; intros Hcmp.
  - split.
    + apply filter_In. split; [exact Hin|]. unfold joinsFirst. rewrite Hne.
      apply Z.leb_le in Hcmp. rewrite Hcmp. reflexivity.
    + intros H. apply filter_In in H. destruct H as [_ H].
      unfold joinsSecond in H. apply Z.leb_le in Hcmp. rewrite Hne, Hcmp in H. discriminate.
  - split.
    + apply filter_In. split; [exact Hin|]. unfold joinsSecond. rewrite Hne.
      apply Z.leb_gt in Hcmp. rewrite Hcmp. reflexivity.
    + intros H. apply filter_In in H. destruct H as [_ H].
      unfold joinsFirst in H. apply Z.leb_gt in Hcmp. rewrite Hne, Hcmp in H. discriminate.
Qed.

(** *** Players of a snapshot *)

Lemma snapshot_players (self : SimulatedRobot) (w : World) :
  firstTeamPlayers self (worldState (worldStateAfter self w))
  = map (fun obj => newGTPlayer normalize self w (numberOf obj) obj) (firstTeamRobots self)
  /\ secondTeamPlayers self (worldState (worldStateAfter self w))
     = map (fun obj => newGTPlayer normalize self w (numberOf obj - robotsPerTeam)%Z obj)
           (secondTeamRobots self).
Proof.
  unfold getWorldState, firstTeamPlayers, secondTeamPlayers.
  destruct (ballBlock self w) as [[[bs s1] b1] evs].
  cbn [worldState ownTeamPlayers opponentTeamPlayers].
  destruct (firstTeam self); split; reflexivity.
Qed.

Lemma newGTPlayer_number (self : SimulatedRobot) (w : World) (n : Z) (obj : Object) :
  number (newGTPlayer normalize self w n obj) = n.
Proof. unfold newGTPlayer. destruct (getPose2f w obj). reflexivity. Qed.

(** C7: in every snapshot the numbers of the second-team players are the
    parsed numbers of the second roster minus [robotsPerTeam], entry by entry,
    and such a number lies in [1, robotsPerTeam] whenever the parsed number
    lies in [robotsPerTeam + 1, 2 * robotsPerTeam]; the numbers of the
    first-team players are the parsed numbers of the first roster. *)
Theorem second_team_numbers_normalized (self : SimulatedRobot) (w : World) :
  let ws := worldState (worldStateAfter self w) in
  map number (secondTeamPlayers self ws)
  = map (fun obj => (numberOf obj - robotsPerTeam)%Z) (secondTeamRobots self)
  /\ Forall2 (fun obj player =>
                (robotsPerTeam + 1 <= numberOf obj <= 2 * robotsPerTeam)%Z ->
                (1 <= number player <= robotsPerTeam)%Z)
             (secondTeamRobots self) (secondTeamPlayers self ws)
  /\ map number (firstTeamPlayers self ws) = map numberOf (firstTeamRobots self).
Proof.
  cbv zeta. destruct (snapshot_players self w) as [Hf Hs]. rewrite Hf, Hs.
  rewrite !map_map. split; [|split].
  - apply map_ext. intros obj. apply newGTPlayer_number.
  - clear Hf Hs.
    induction (secondTeamRobots self) as [|obj rest IH]; cbn [map]; constructor.
    + rewrite newGTPlayer_number. intros Hraw. lia.
    + exact IH.
  - apply map_ext. intros obj. apply newGTPlayer_number.
Qed.

(** *** The half-turn of the first team *)

Lemma rotate_PI (v : Vector2f) : Vec2.rotate v PI = Vec2.neg v.
Proof.
  unfold Vec2.rotate, Vec2.neg. rewrite cos_PI, sin_PI.
  f_equal; ring.
Qed.

Lemma half_turn_translation (p : Pose2f) :
  translation (Pose2f_add normalize (Pose2f_of_angle PI) p) = Vec2.neg (translation p).
Proof.
  unfold Pose2f_add, Pose2f_of_angle. cbn [translation rotation].
  rewrite rotate_PI. unfold Vec2.add, Vec2.neg, Vec2.Zero. cbn [v2x v2y].
  f_equal; ring.
Qed.

Lemma half_turn_rotation (p : Pose2f) :
  rotation (Pose2f_add normalize (Pose2f_of_angle PI) p) = normalize (PI + rotation p).
Proof. reflexivity. Qed.

Lemma same_angle_normalize (a : R) :
  preserves_angle normalize -> same_angle (normalize a) a.
Proof. intros Hn. exact (Hn a). Qed.

(** C8: a rostered robot whose raw pose is (x = 1000, y = 0, theta = 0) is
    reported by a first-team object at translation (-1000, 0) with the
    rotation [normalize PI], which is the angle of 180 degrees; a second-team
    object reports the raw pose unchanged. *)
Theorem raw_pose_read_per_team
        (self : SimulatedRobot) (w : World) (obj : Object) (up : bool) :
  preserves_angle normalize ->
  In obj (firstTeamRobots self ++ secondTeamRobots self) ->
  getPose2f w obj = (up, mkPose2f 0 (mkVector2f 1000 0)) ->
  let ws := worldState (worldStateAfter self w) in
  exists player n,
    In player (ownTeamPlayers ws ++ opponentTeamPlayers ws)
    /\ player = newGTPlayer normalize self w n obj
    /\ upright player = up
    /\ (firstTeam self = true ->
        translation (pose player) = mkVector2f (-1000) 0
        /\ rotation (pose player) = normalize PI
        /\ same_angle (rotation (pose player)) PI)
    /\ (firstTeam self = false -> pose player = mkPose2f 0 (mkVector2f 1000 0)).
Proof.
  intros Hn Hin Hpose ws.
  assert (Hshape : forall n,
             upright (newGTPlayer normalize self w n obj) = up
             /\ (firstTeam self = true ->
                 translation (pose (newGTPlayer normalize self w n obj)) = mkVector2f (-1000) 0
                 /\ rotation (pose (newGTPlayer normalize self w n obj)) = normalize PI
                 /\ same_angle (rotation (pose (newGTPlayer normalize self w n obj))) PI)
             /\ (firstTeam self = false ->
                 pose (newGTPlayer normalize self w n obj) = mkPose2f 0 (mkVector2f 1000 0))).
  { intros n. unfold newGTPlayer. rewrite Hpose.
    destruct (firstTeam self); cbn [upright pose]; split; try reflexivity; split;
      try discriminate; intros _.
    - rewrite half_turn_translation, half_turn_rotation. cbn [translation rotation].
      assert (E : PI + 0 = PI) by ring. rewrite E.
      split; [|split].
      + unfold Vec2.neg. cbn [v2x v2y]. f_equal; ring.
      + reflexivity.
      + apply same_angle_normalize, Hn.
    - reflexivity. }
  destruct (snapshot_players self w) as [Hf Hs]. fold ws in Hf, Hs.
  apply in_app_or in Hin. destruct Hin as [Hin | Hin].
  - exists (newGTPlayer normalize self w (numberOf obj) obj), (numberOf obj).
    split; [|split; [reflexivity | apply Hshape]].
    assert (Hm : In (newGTPlayer normalize self w (numberOf obj) obj)
                    (firstTeamPlayers self ws)).
    { rewrite Hf. apply (in_map (fun o => newGTPlayer normalize self w (numberOf o) o)), Hin. }
    unfold firstTeamPlayers in Hm. apply in_or_app.
    destruct (firstTeam self); [left | right]; exact Hm.
  - exists (newGTPlayer normalize self w (numberOf obj - robotsPerTeam)%Z obj),
      (numberOf obj - robotsPerTeam)%Z.
    split; [|split; [reflexivity | apply Hshape]].
    assert (Hm : In (newGTPlayer normalize self w (numberOf obj - robotsPerTeam)%Z obj)
                    (secondTeamPlayers self ws)).
    { rewrite Hs.
      apply (in_map (fun o => newGTPlayer normalize self w (numberOf o - robotsPerTeam)%Z o)), Hin. }
    unfold secondTeamPlayers in Hm. apply in_or_app.
    destruct (firstTeam self); [right | left]; exact Hm.
Qed.

(** C4: for every canonical position and yaw and either team, the raw pose
    [moveRobotPerTeam] hands to the simulator, read back through the
    read-path transform of [getOdometryData], has the original horizontal
    position exactly and the original yaw up to whole turns; for the second
    team both transforms are the identity. *)
Theorem placement_read_round_trip
        (self : SimulatedRobot) (pos rot : Vector3f) (changeRotation resetDynamics : bool) :
  preserves_angle normalize ->
  let placed := moveRobotPerTeam normalize self pos rot changeRotation resetDynamics in
  let raw := mkPose2f (v3z (mr_rot placed)) (Vec3.head2 (mr_pos placed)) in
  let back := getOdometryData normalize self raw in
  translation back = Vec3.head2 pos
  /\ same_angle (rotation back) (v3z rot)
  /\ (firstTeam self = false -> back = mkPose2f (v3z rot) (Vec3.head2 pos)).
Proof.
  intros Hn. unfold moveRobotPerTeam, getOdometryData. cbv zeta.
  cbn [mr_rot mr_pos].
  destruct (firstTeam self).
  - rewrite half_turn_translation, half_turn_rotation. cbn [translation rotation].
    split; [|split; [|discriminate]].
    + unfold Vec3.ofHead2, Vec3.head2, Vec2.neg. cbn [v2x v2y v3x v3y v3z].
      f_equal; ring.
    + unfold Vec3.ofHead2. cbn [v3z].
      destruct (Hn (v3z rot + PI)) as [k1 E1].
      destruct (Hn (PI + normalize (v3z rot + PI))) as [k2 E2].
      exists (1 + k1 + k2)%Z. rewrite E2, E1, !plus_IZR. ring.
  - cbn [translation rotation]. split; [reflexivity|]. split; [|reflexivity].
    exists 0%Z. ring.
Qed.

(** *** Ball friction *)

Lemma norm_nonneg (v : Vector2f) : 0 <= Vec2.norm v.
Proof. unfold Vec2.norm. apply sqrt_pos. Qed.

Lemma norm_Zero : Vec2.norm Vec2.Zero = 0.
Proof.
  unfold Vec2.norm, Vec2.Zero. cbn [v2x v2y].
  replace (0 * 0 + 0 * 0) with 0 by ring. apply sqrt_0.
Qed.

Lemma norm_scale (v : Vector2f) (k : R) :
  0 <= k -> Vec2.norm (Vec2.scale v k) = k * Vec2.norm v.
Proof.
  intros Hk. unfold Vec2.norm, Vec2.scale. cbn [v2x v2y].
  replace (v2x v * k * (v2x v * k) + v2y v * k * (v2y v * k))
    with (k * k * (v2x v * v2x v + v2y v * v2y v)) by ring.
  rewrite sqrt_mult_alt by nra.
  rewrite sqrt_square by exact Hk. reflexivity.
Qed.

(** C5: on the 2D backend with a ball, for a friction decrement
    d = friction * simStepLength / 1000 that is not positive and a ball speed
    S: when the magnitude of d exceeds S the horizontal velocity becomes the
    zero vector; otherwise it is the old velocity times a non-negative factor
    (positive while S + d is positive), so the direction is kept, and its
    norm is S + d.  The position and the third velocity entry are untouched. *)
Theorem friction_clamps_at_zero (w : World) (b : Body) (friction : R) :
  ball w = Some b ->
  is2D (controller w) = true ->
  friction * simStepLength (controller w) / 1000 <= 0 ->
  let S := Vec2.norm (Vec3.head2 (bodyVelocity b)) in
  let d := friction * simStepLength (controller w) / 1000 in
  exists b',
    applyBallFriction w friction = Some b'
    /\ bodyPosition b' = bodyPosition b
    /\ v3z (bodyVelocity b') = v3z (bodyVelocity b)
    /\ (S < - d -> Vec3.head2 (bodyVelocity b') = Vec2.Zero)
    /\ (- d <= S ->
        (exists k, 0 <= k /\ (0 < S + d -> 0 < k)
                   /\ Vec3.head2 (bodyVelocity b')
                      = Vec2.scale (Vec3.head2 (bodyVelocity b)) k)
        /\ Vec2.norm (Vec3.head2 (bodyVelocity b')) = S + d).
Proof.
  intros Hb H2 Hd S d. unfold applyBallFriction. rewrite Hb, H2. cbn [negb].
  fold S. fold d.
  eexists; split; [reflexivity|]. cbn [bodyPosition bodyVelocity].
  unfold Vec3.ofHead2 at 1. cbn [v3z].
  split; [reflexivity|]. split; [reflexivity|].
  assert (HS : 0 <= S) by apply norm_nonneg.
  assert (Hh : forall u c, Vec3.head2 (Vec3.ofHead2 u c) = u) by (intros [ux uy] c; reflexivity).
  rewrite Hh.
  destruct (Rleb (S + d) 0) eqn:Hle.
  - apply Rleb_true in Hle. split; [reflexivity|].
    intros Hge. assert (E : S + d = 0) by lra. split.
    + exists 0. split; [lra|]. split; [lra|].
      unfold Vec2.scale, Vec2.Zero. f_equal; ring.
    + rewrite norm_Zero. lra.
  - apply Rleb_false in Hle. split; [intros Hlt; lra|].
    intros _. assert (Spos : 0 < S) by (unfold d in *; lra).
    assert (Kpos : 0 < (S + d) / S) by (apply Rdiv_lt_0_compat; lra).
    split.
    + exists ((S + d) / S). split; [lra|]. split; [intros _; exact Kpos | reflexivity].
    + rewrite norm_scale by lra. fold S. field. lra.
Qed.

(* the ball block writes the hidden ball state only *)
Lemma getWorldState_keeps_team (self : SimulatedRobot) (w : World) :
  firstTeam (self' (worldStateAfter self w)) = firstTeam self.
Proof.
  destruct (getWorldState_ballBlock self w) as (_ & Hself & _). rewrite Hself.
  destruct (ball w) as [b|] eqn:Hb.
  - destruct (ballBlock_cases self w b Hb) as [Hheld | [H0 H1]].
    + rewrite (ballBlock_held self w b Hb Hheld). reflexivity.
    + destruct (is2D (controller w)) eqn:H2.
      * rewrite (ballBlock_sampled_2D self w b Hb H0 H1 H2). reflexivity.
      * rewrite (ballBlock_sampled_3D self w b Hb H0 H1 H2). reflexivity.
  - unfold ballBlock. rewrite Hb. reflexivity.
Qed.

(** *** The curve angle *)

(* a call that holds the velocity at zero: first sample or unchanged time stamp *)
Lemma call_held (self : SimulatedRobot) (w : World) (b : Body) :
  ball w = Some b ->
  lastBallTime self = 0%Z \/ lastBallTime self = currentSystemTime w ->
  let r := worldStateAfter self w in
  horizontalVelocities r = [Vec2.Zero]
  /\ rolled r = []
  /\ curveVel (self' r) = curveVel self
  /\ hadVelocity (self' r) = false
  /\ lastBallTime (self' r) = currentSystemTime w
  /\ lastBallPosition (self' r) = gtBallPosition self (controller w) b.
Proof.
  intros Hb Hheld r.
  destruct (getWorldState_ballBlock self w) as (Hballs & Hself & _ & Hev).
  unfold horizontalVelocities, rolled. subst r.
  rewrite Hballs, Hself, Hev, (ballBlock_held self w b Hb Hheld).
  repeat split; reflexivity.
Qed.

(* a call of the 3D backend that computes the finite difference *)
Lemma call_sampled_3D (self : SimulatedRobot) (w : World) (b : Body) :
  ball w = Some b ->
  lastBallTime self <> 0%Z -> lastBallTime self <> currentSystemTime w ->
  is2D (controller w) = false ->
  let r := worldStateAfter self w in
  let v := Vec3.head2 (sampledVelocity self w b) in
  let sigma := 0.015 * IZR (usub (currentSystemTime w) (lastBallTime self)) / 1000 in
  let roll := negb (hadVelocity self) && Vec2.neqb v Vec2.Zero in
  horizontalVelocities r = [v]
  /\ rolled r = (if roll then [sigma] else [])
  /\ curveVel (self' r)
     = (if Vec2.eqb v Vec2.Zero then 0
        else if roll then Random_normal w sigma else curveVel self)
  /\ hadVelocity (self' r) = Vec2.neqb v Vec2.Zero
  /\ lastBallTime (self' r) = currentSystemTime w
  /\ lastBallPosition (self' r) = gtBallPosition self (controller w) b.
Proof.
  intros Hb H0 H1 H2 r v sigma roll.
  destruct (getWorldState_ballBlock self w) as (Hballs & Hself & _ & Hev).
  unfold horizontalVelocities, rolled. subst r.
  rewrite Hballs, Hself, Hev, (ballBlock_sampled_3D self w b Hb H0 H1 H2).
  cbn [fst snd balls map velocity curveVel hadVelocity lastBallTime lastBallPosition].
  fold v. fold sigma. fold roll.
  repeat split; try reflexivity.
  destruct roll; reflexivity.
Qed.

(* what one call on the 3D backend does to the curve, in terms of the
   horizontal velocity it reports *)
Lemma call_3D_curve (self : SimulatedRobot) (w : World) :
  ball3D w ->
  let r := worldStateAfter self w in
  exists v,
    horizontalVelocities r = [v]
    /\ hadVelocity (self' r) = Vec2.neqb v Vec2.Zero
    /\ lastBallTime (self' r) = currentSystemTime w
    /\ (v = Vec2.Zero -> rolled r = [])
    /\ (v <> Vec2.Zero ->
        let sigma := 0.015 * IZR (usub (currentSystemTime w) (lastBallTime self)) / 1000 in
        rolled r = (if hadVelocity self then [] else [sigma])
        /\ curveVel (self' r)
           = (if hadVelocity self then curveVel self else Random_normal w sigma)).
Proof.
  intros (Hball & H2 & _) r.
  destruct (ball w) as [b|] eqn:Hb; [clear Hball | contradiction Hball; reflexivity].
  destruct (ballBlock_cases self w b Hb) as [Hheld | [H0 H1]].
  - destruct (call_held self w b Hb Hheld) as (Hv & Hr & _ & Hh & Ht & _).
    exists Vec2.Zero. fold r in Hv, Hr, Hh, Ht.
    split; [exact Hv|]. split.
    { rewrite Hh. symmetry. apply Vec2_neqb_false. reflexivity. }
    split; [exact Ht|]. split; [intros _; exact Hr|].
    intros N. contradiction N. reflexivity.
  - destruct (call_sampled_3D self w b Hb H0 H1 H2) as (Hv & Hr & Hc & Hh & Ht & _).
    fold r in Hv, Hr, Hc, Hh, Ht.
    exists (Vec3.head2 (sampledVelocity self w b)).
    split; [exact Hv|]. split; [exact Hh|]. split; [exact Ht|]. split.
    + intros Hz. rewrite Hr.
      apply Vec2_neqb_false in Hz. rewrite Hz, andb_false_r. reflexivity.
    + intros Hnz. cbv zeta. rewrite Hr, Hc.
      assert (En : Vec2.neqb (Vec3.head2 (sampledVelocity self w b)) Vec2.Zero = true)
        by (apply Vec2_neqb_true; exact Hnz).
      assert (Ee : Vec2.eqb (Vec3.head2 (sampledVelocity self w b)) Vec2.Zero = false).
      { rewrite Vec2_neqb_negb in En. apply negb_true_iff in En. exact En. }
      rewrite En, Ee, andb_true_r.
      destruct (hadVelocity self); split; reflexivity.
Qed.

Lemma Vec2_eq_dec (a b : Vector2f) : a = b \/ a <> b.
Proof.
  destruct (Vec2.eqb a b) eqn:E.
  - left. apply Vec2_eqb_true. exact E.
  - right. intros H. apply Vec2_eqb_true in H. congruence.
Qed.

(* two consecutive calls *)
Lemma two_calls_curve (self : SimulatedRobot) (w0 w1 : World) :
  ball3D w0 -> ball3D w1 ->
  (currentSystemTime w0 < currentSystemTime w1)%Z ->
  let r0 := worldStateAfter self w0 in
  let r1 := worldStateAfter (self' r0) w1 in
  let sigma := 0.015 * IZR (currentSystemTime w1 - currentSystemTime w0) / 1000 in
  exists v0 v1,
    horizontalVelocities r0 = [v0]
    /\ horizontalVelocities r1 = [v1]
    /\ (v0 = Vec2.Zero /\ v1 <> Vec2.Zero ->
        rolled r1 = [sigma] /\ curveVel (self' r1) = Random_normal w1 sigma)
    /\ (~ (v0 = Vec2.Zero /\ v1 <> Vec2.Zero) -> rolled r1 = [])
    /\ (v0 <> Vec2.Zero /\ v1 <> Vec2.Zero -> curveVel (self' r1) = curveVel (self' r0)).
Proof.
  intros B0 B1 Hlt r0 r1 sigma.
  destruct (call_3D_curve self w0 B0) as (v0 & Hv0 & Hh0 & Ht0 & _).
  destruct (call_3D_curve (self' r0) w1 B1) as (v1 & Hv1 & _ & _ & Hz1 & Hn1).
  fold r0 in Hv0, Hh0, Ht0. fold r1 in Hv1, Hz1, Hn1.
  cbv zeta in Hn1. rewrite Ht0, Hh0 in Hn1.
  assert (Eu : usub (currentSystemTime w1) (currentSystemTime w0)
               = (currentSystemTime w1 - currentSystemTime w0)%Z).
  { destruct B0 as (_ & _ & U0), B1 as (_ & _ & U1). apply usub_plain; auto. lia. }
  rewrite Eu in Hn1. fold sigma in Hn1.
  exists v0, v1. split; [exact Hv0|]. split; [exact Hv1|]. split; [|split].
  - intros [Z0 N1]. destruct (Hn1 N1) as [Hr Hc].
    apply Vec2_neqb_false in Z0. rewrite Z0 in Hr, Hc. split; assumption.
  - intros Hnot. destruct (Vec2_eq_dec v1 Vec2.Zero) as [Z1 | N1]; [exact (Hz1 Z1)|].
    destruct (Hn1 N1) as [Hr _].
    destruct (Vec2.neqb v0 Vec2.Zero) eqn:E0; [exact Hr|].
    apply Vec2_neqb_false in E0. contradiction Hnot. split; assumption.
  - intros [N0 N1]. destruct (Hn1 N1) as [_ Hc].
    apply Vec2_neqb_true in N0. rewrite N0 in Hc. exact Hc.
Qed.

(** C2: over any sequence of calls on the 3D backend with a ball present and
    strictly increasing time stamps, a call that has a predecessor asks
    [Random::normal] for a curve angle exactly when the previous call
    reported zero horizontal velocity and this one reports a nonzero one; the
    standard deviation is then 0.015 * elapsedMillis / 1000 and the sample
    becomes the curve angle.  When both velocities are nonzero nothing is
    drawn and the curve angle is the one the previous call left.  The first
    call on an object without a previous sample draws nothing. *)
Theorem curve_rolled_when_ball_starts_moving
        (self : SimulatedRobot) (calls : list World) :
  Forall ball3D calls ->
  increasing (map currentSystemTime calls) ->
  (forall i w0 w1,
      nth_error calls i = Some w0 -> nth_error calls (S i) = Some w1 ->
      let sigma := 0.015 * IZR (currentSystemTime w1 - currentSystemTime w0) / 1000 in
      exists r0 r1 v0 v1,
        nth_error (runCalls self calls) i = Some r0
        /\ nth_error (runCalls self calls) (S i) = Some r1
        /\ horizontalVelocities r0 = [v0]
        /\ horizontalVelocities r1 = [v1]
        /\ (v0 = Vec2.Zero /\ v1 <> Vec2.Zero ->
            rolled r1 = [sigma] /\ curveVel (self' r1) = Random_normal w1 sigma)
        /\ (~ (v0 = Vec2.Zero /\ v1 <> Vec2.Zero) -> rolled r1 = [])
        /\ (v0 <> Vec2.Zero /\ v1 <> Vec2.Zero ->
            rolled r1 = [] /\ curveVel (self' r1) = curveVel (self' r0)))
  /\ (lastBallTime self = 0%Z ->
      forall r, nth_error (runCalls self calls) 0 = Some r -> rolled r = []).
Proof.
  intros Hall Hinc. split.
  - revert self Hall Hinc.
    induction calls as [|w rest IH]; intros self Hall Hinc i w0 w1 E0 E1.
    + destruct i; discriminate.
    + inversion Hall as [|? ? Bw Brest]; subst.
      destruct i as [|i].
      * destruct rest as [|w' rest']; [discriminate|].
        cbn in E0, E1. injection E0 as <-. injection E1 as <-.
        inversion Brest as [|? ? Bw' _]; subst.
        destruct Hinc as [Hlt _].
        destruct (two_calls_curve self w w' Bw Bw' Hlt)
          as (v0 & v1 & Hv0 & Hv1 & Hroll & Hno & Hkeep).
        cbv zeta.
        exists (worldStateAfter self w),
          (worldStateAfter (self' (worldStateAfter self w)) w'), v0, v1.
        split; [reflexivity|]. split; [reflexivity|].
        split; [exact Hv0|]. split; [exact Hv1|].
        split; [exact Hroll|]. split; [exact Hno|].
        intros [N0 N1]. split.
        -- apply Hno. intros [Z0 _]. contradiction.
        -- apply Hkeep. split; assumption.
      * cbn [nth_error] in E0, E1.
        assert (Hinc' : increasing (map currentSystemTime rest)).
        { destruct rest as [|w' rest']; [exact I|]. destruct Hinc as [_ H]. exact H. }
        destruct (IH (self' (worldStateAfter self w)) Brest Hinc' i w0 w1 E0 E1)
          as (r0 & r1 & v0 & v1 & H).
        exists r0, r1, v0, v1. exact H.
  - intros Hfresh r Er.
    destruct calls as [|w rest]; [discriminate|].
    cbn in Er. injection Er as <-.
    inversion Hall as [|? ? (Hball & _) _]; subst.
    destruct (ball w) as [b|] eqn:Hb; [|contradiction Hball; reflexivity].
    destruct (call_held self w b Hb (or_introl Hfresh)) as (_ & Hr & _). exact Hr.
Qed.

(** C3, as the code has it: after a call on the 3D backend with a ball
    present that computes the finite difference (a previous sample exists
    and its time stamp differs from the current time) and finds the
    horizontal velocity exactly zero, [curveVel] is zero; a call that
    reports zero velocity because there is no such sample leaves [curveVel]
    as it was. *)
Theorem curve_reset_when_sampled_at_rest
        (self : SimulatedRobot) (w : World) (b : Body) :
  ball w = Some b ->
  is2D (controller w) = false ->
  let r := worldStateAfter self w in
  (lastBallTime self <> 0%Z /\ lastBallTime self <> currentSystemTime w ->
   horizontalVelocities r = [Vec2.Zero] -> curveVel (self' r) = 0)
  /\ (lastBallTime self = 0%Z \/ lastBallTime self = currentSystemTime w ->
      horizontalVelocities r = [Vec2.Zero] /\ curveVel (self' r) = curveVel self).
Proof.
  intros Hb H2 r. split.
  - intros [H0 H1] Hv.
    destruct (call_sampled_3D self w b Hb H0 H1 H2) as (Hv' & _ & Hc & _).
    fold r in Hv', Hc.
    assert (Ez : Vec3.head2 (sampledVelocity self w b) = Vec2.Zero)
      by (rewrite Hv' in Hv; congruence).
    rewrite Hc, Ez.
    assert (E : Vec2.eqb Vec2.Zero Vec2.Zero = true) by (apply Vec2_eqb_true; reflexivity).
    rewrite E. reflexivity.
  - intros Hheld.
    destruct (call_held self w b Hb Hheld) as (Hv & _ & Hc & _).
    split; assumption.
Qed.

End Properties.

(** ** The model on the sample scenes *)

Lemma wrapOnce_preserves : preserves_angle Sample.wrapOnce.
Proof.
  intros a. unfold Sample.wrapOnce.
  destruct (Rle_dec PI a).
  - exists (-1)%Z. ring.
  - destruct (Rlt_dec a (- PI)).
    + exists 1%Z. ring.
    + exists 0%Z. ring.
Qed.

Lemma sample_numbers :
  map (getNumber decimal_toInt)
      [Sample.robot1; Sample.robot2; Sample.robot6; Sample.dummy1]
  = [1; 2; 6; 1]%Z.
Proof. reflexivity. Qed.

(* the three calls of [Sample.calls], one after the other *)
Lemma sample_calls_trace :
  let ws := getWorldState decimal_toInt Sample.robotsPerTeam Sample.wrapOnce in
  let r1 := ws Sample.fresh (Sample.world Sample.ctrl3D (Some (Sample.ballAt 0)) 100) in
  let r2 := ws (self' r1) (Sample.world Sample.ctrl3D (Some (Sample.ballAt 1)) 200) in
  let r3 := ws (self' r2) (Sample.world Sample.ctrl3D (Some (Sample.ballAt 1)) 200) in
  horizontalVelocities r1 = [Vec2.Zero]
  /\ horizontalVelocities r2 = [mkVector2f 10000 0]
  /\ rolled r2 = [0.0015]
  /\ curveVel (self' r2) = 0.0015
  /\ horizontalVelocities r3 = [Vec2.Zero]
  /\ curveVel (self' r3) = 0.0015.
Proof.
  intros ws r1 r2 r3.
  set (w1 := Sample.world Sample.ctrl3D (Some (Sample.ballAt 0)) 100) in *.
  set (w2 := Sample.world Sample.ctrl3D (Some (Sample.ballAt 1)) 200) in *.
  destruct (call_held decimal_toInt Sample.robotsPerTeam Sample.wrapOnce
              Sample.fresh w1 (Sample.ballAt 0) eq_refl (or_introl eq_refl))
    as (Hv1 & _ & Hc1 & Hh1 & Ht1 & Hp1).
  change (horizontalVelocities r1 = [Vec2.Zero]) in Hv1.
  change (hadVelocity (self' r1) = false) in Hh1.
  change (lastBallTime (self' r1) = 100%Z) in Ht1.
  change (lastBallPosition (self' r1)
          = gtBallPosition Sample.fresh Sample.ctrl3D (Sample.ballAt 0)) in Hp1.
  assert (Hf1 : firstTeam (self' r1) = false)
    by apply (getWorldState_keeps_team decimal_toInt Sample.robotsPerTeam
                Sample.wrapOnce Sample.fresh w1).
  assert (N0 : lastBallTime (self' r1) <> 0%Z) by (rewrite Ht1; discriminate).
  assert (N1 : lastBallTime (self' r1) <> currentSystemTime w2)
    by (rewrite Ht1; discriminate).
  destruct (call_sampled_3D decimal_toInt Sample.robotsPerTeam Sample.wrapOnce
              (self' r1) w2 (Sample.ballAt 1) eq_refl N0 N1 eq_refl)
    as (Hv2 & Hr2 & Hc2 & Hh2 & Ht2 & _).
  change (getWorldState decimal_toInt Sample.robotsPerTeam Sample.wrapOnce
            (self' r1) w2) with r2 in Hv2, Hr2, Hc2, Hh2, Ht2.
  assert (Ev : Vec3.head2 (sampledVelocity (self' r1) w2 (Sample.ballAt 1))
               = mkVector2f 10000 0).
  { unfold sampledVelocity, gtBallPosition. rewrite Hf1, Hp1, Ht1.
    change (usub (currentSystemTime w2) 100) with 100%Z.
    unfold Vec3.head2, Vec3.div, Vec3.lscale, Vec3.sub, gtBallPosition,
      getPosition3D, Vec3.scale.
    cbn. f_equal; field. }
  rewrite Ev in Hv2, Hr2, Hc2, Hh2.
  assert (En : Vec2.neqb (mkVector2f 10000 0) Vec2.Zero = true).
  { apply Vec2_neqb_true. intros H. apply (f_equal v2x) in H. cbn in H. lra. }
  assert (Ee : Vec2.eqb (mkVector2f 10000 0) Vec2.Zero = false).
  { rewrite Vec2_neqb_negb in En. apply negb_true_iff in En. exact En. }
  assert (Es : 0.015 * IZR (usub (currentSystemTime w2) (lastBallTime (self' r1))) / 1000
               = 0.0015).
  { rewrite Ht1. change (usub (currentSystemTime w2) 100) with 100%Z. lra. }
  rewrite Hh1, En, Es in Hr2. rewrite Hh1, En, Ee, Es in Hc2.
  cbn [negb andb] in Hr2, Hc2.
  change (Random_normal w2 0.0015) with 0.0015 in Hc2.
  assert (Held3 : lastBallTime (self' r2) = 0%Z
                  \/ lastBallTime (self' r2) = currentSystemTime w2)
    by (right; exact Ht2).
  destruct (call_held decimal_toInt Sample.robotsPerTeam Sample.wrapOnce
              (self' r2) w2 (Sample.ballAt 1) eq_refl Held3)
    as (Hv3 & _ & Hc3 & _).
  change (getWorldState decimal_toInt Sample.robotsPerTeam Sample.wrapOnce
            (self' r2) w2) with r3 in Hv3, Hc3.
  rewrite Hc2 in Hc3.
  repeat split; assumption.
Qed.

(** C3 fails as stated: a freshly built object takes a first sample, sees
    the ball move, and is then called again at the same time stamp; the
    third call reports zero horizontal velocity while [curveVel] still
    holds the angle rolled by the second call. *)
Lemma curve_kept_on_repeated_time_stamp :
  exists w r,
    nth_error Sample.calls 2 = Some w
    /\ nth_error (run decimal_toInt Sample.robotsPerTeam Sample.wrapOnce
                      Sample.fresh Sample.calls) 2 = Some r
    /\ ball w <> None
    /\ is2D (controller w) = false
    /\ horizontalVelocities r = [Vec2.Zero]
    /\ curveVel (self' r) <> 0.
Proof.
  destruct sample_calls_trace as (_ & _ & _ & _ & Hv3 & Hc3).
  eexists. eexists.
  split; [reflexivity|]. split; [reflexivity|].
  split; [discriminate|]. split; [reflexivity|].
  split; [exact Hv3|]. rewrite Hc3. lra.
Qed.

(** C9 fails as stated: the extra "RoboCup.extras.robot1" is not the owning
    robot "RoboCup.robots.robot1" but carries its number, and is in neither
    roster of the object built for robot1. *)
Lemma same_number_extra_left_out :
  exists self,
    SimulatedRobot_new decimal_toInt Sample.robotsPerTeam Sample.ctrl3D
                       Sample.scene Sample.robot1
    = Some self
    /\ resolveObject Sample.scene "RoboCup.extras" compound3D = Some [Sample.dummy1]
    /\ Sample.dummy1 <> Sample.robot1
    /\ (getNumber decimal_toInt Sample.dummy1 <= Sample.robotsPerTeam)%Z
    /\ ~ In Sample.dummy1 (firstTeamRobots self)
    /\ ~ In Sample.dummy1 (secondTeamRobots self).
Proof.
  destruct (SimulatedRobot_new_rosters decimal_toInt Sample.robotsPerTeam
              Sample.ctrl3D Sample.scene Sample.robot1
              [Sample.robot1; Sample.robot2; Sample.robot6] [Sample.dummy1]
              eq_refl eq_refl)
    as (self & Hnew & _ & _ & _ & Hf & Hs).
  exists self. split; [exact Hnew|]. split; [reflexivity|].
  split; [discriminate|]. split; [vm_compute; discriminate|].
  rewrite Hf, Hs.
  change (filter (joinsFirst decimal_toInt Sample.robotsPerTeam
                    (getNumber decimal_toInt Sample.robot1))
            ([Sample.robot1; Sample.robot2; Sample.robot6] ++ [Sample.dummy1]))
    with [Sample.robot2].
  change (filter (joinsSecond decimal_toInt Sample.robotsPerTeam
                    (getNumber decimal_toInt Sample.robot1))
            ([Sample.robot1; Sample.robot2; Sample.robot6] ++ [Sample.dummy1]))
    with [Sample.robot6].
  split; intros [H | []]; discriminate.
Qed.

Lemma sample_times_unsigned (t : Z) : (0 <= t <= 1000)%Z -> is_unsigned t.
Proof. unfold is_unsigned, UINT_MOD. lia. Qed.

Lemma sample_ball3D (x : R) (t : Z) :
  (0 <= t <= 1000)%Z -> ball3D (Sample.world Sample.ctrl3D (Some (Sample.ballAt x)) t).
Proof.
  intros Ht. split; [discriminate|]. split; [reflexivity|].
  apply sample_times_unsigned, Ht.
Qed.

(* C1 at [Sample.seen]: the ball one metre further after 100 ms *)
Lemma ball_velocity_sample :
  let w := Sample.world Sample.ctrl3D (Some (Sample.ballAt 1)) 200 in
  ball w = Some (Sample.ballAt 1)
  /\ is_unsigned (lastBallTime Sample.seen)
  /\ is_unsigned (currentSystemTime w)
  /\ exists gtBall,
      balls (worldState (getWorldState decimal_toInt Sample.robotsPerTeam
                                       Sample.wrapOnce Sample.seen w)) = [gtBall]
      /\ velocity gtBall = mkVector3f 10000 0 0.
Proof.
  intros w.
  assert (U1 : is_unsigned (lastBallTime Sample.seen))
    by (apply sample_times_unsigned; cbn; lia).
  assert (U2 : is_unsigned (currentSystemTime w))
    by (apply sample_times_unsigned; cbn; lia).
  split; [reflexivity|]. split; [exact U1|]. split; [exact U2|].
  destruct (ball_velocity_finite_difference decimal_toInt Sample.robotsPerTeam
              Sample.wrapOnce Sample.seen w (Sample.ballAt 1) eq_refl U1 U2)
    as (g & Hg & Hp & Hs & _).
  exists g. split; [exact Hg|].
  assert (N : lastBallTime Sample.seen <> 0%Z
              /\ lastBallTime Sample.seen <> currentSystemTime w)
    by (split; discriminate).
  destruct (Hs N) as (Hv & _). rewrite Hv, Hp.
  change (usub (currentSystemTime w) (lastBallTime Sample.seen)) with 100%Z.
  unfold Vec3.div, Vec3.lscale, Vec3.sub, gtBallPosition, getPosition3D, Vec3.scale.
  cbn. f_equal; field.
Defined.

(* C2 at [Sample.moving], second and third call: the ball starts to move *)
Lemma curve_rolled_sample :
  let w0 := Sample.world Sample.ctrl3D (Some (Sample.ballAt 0)) 200 in
  let w1 := Sample.world Sample.ctrl3D (Some (Sample.ballAt 1)) 300 in
  let results := run decimal_toInt Sample.robotsPerTeam Sample.wrapOnce
                     Sample.fresh Sample.moving in
  let sigma := 0.015 * IZR (currentSystemTime w1 - currentSystemTime w0) / 1000 in
  Forall ball3D Sample.moving
  /\ increasing (map currentSystemTime Sample.moving)
  /\ exists r0 r1 v0 v1,
      nth_error results 1 = Some r0
      /\ nth_error results 2 = Some r1
      /\ horizontalVelocities r0 = [v0]
      /\ horizontalVelocities r1 = [v1]
      /\ (v0 = Vec2.Zero /\ v1 <> Vec2.Zero ->
          rolled r1 = [sigma] /\ curveVel (self' r1) = Random_normal w1 sigma)
      /\ (~ (v0 = Vec2.Zero /\ v1 <> Vec2.Zero) -> rolled r1 = [])
      /\ (v0 <> Vec2.Zero /\ v1 <> Vec2.Zero ->
          rolled r1 = [] /\ curveVel (self' r1) = curveVel (self' r0)).
Proof.
  intros w0 w1 results sigma.
  assert (HB : Forall ball3D Sample.moving)
    by (repeat constructor; apply sample_ball3D; lia).
  assert (HI : increasing (map currentSystemTime Sample.moving))
    by (cbn; repeat split; lia).
  split; [exact HB|]. split; [exact HI|].
  exact (proj1 (curve_rolled_when_ball_starts_moving decimal_toInt
                  Sample.robotsPerTeam Sample.wrapOnce Sample.fresh Sample.moving HB HI)
               1%nat w0 w1 eq_refl eq_refl).
Defined.

(* C3 as amended at [Sample.seen]: the ball still at the origin 100 ms later *)
Lemma curve_reset_sample :
  let w := Sample.world Sample.ctrl3D (Some (Sample.ballAt 0)) 200 in
  let r := getWorldState decimal_toInt Sample.robotsPerTeam Sample.wrapOnce
                         Sample.seen w in
  ball w = Some (Sample.ballAt 0)
  /\ is2D (controller w) = false
  /\ (lastBallTime Sample.seen <> 0%Z /\ lastBallTime Sample.seen <> currentSystemTime w ->
      horizontalVelocities r = [Vec2.Zero] -> curveVel (self' r) = 0)
  /\ (lastBallTime Sample.seen = 0%Z \/ lastBallTime Sample.seen = currentSystemTime w ->
      horizontalVelocities r = [Vec2.Zero] /\ curveVel (self' r) = curveVel Sample.seen).
Proof.
  intros w r. split; [reflexivity|]. split; [reflexivity|].
  exact (curve_reset_when_sampled_at_rest decimal_toInt Sample.robotsPerTeam
           Sample.wrapOnce Sample.seen w (Sample.ballAt 0) eq_refl eq_refl).
Defined.

(* C4 at [Sample.first]: a first-team placement read back *)
Lemma placement_round_trip_sample :
  let pos := mkVector3f 1000 2000 0 in
  let rot := mkVector3f 0 0 (PI / 2) in
  let placed := moveRobotPerTeam Sample.wrapOnce Sample.first pos rot true true in
  let raw := mkPose2f (v3z (mr_rot placed)) (Vec3.head2 (mr_pos placed)) in
  let back := getOdometryData Sample.wrapOnce Sample.first raw in
  preserves_angle Sample.wrapOnce
  /\ translation back = Vec3.head2 pos
  /\ same_angle (rotation back) (v3z rot)
  /\ (firstTeam Sample.first = false -> back = mkPose2f (v3z rot) (Vec3.head2 pos)).
Proof.
  intros pos rot placed raw back. split; [exact wrapOnce_preserves|].
  exact (placement_read_round_trip Sample.wrapOnce Sample.first pos rot true true
           wrapOnce_preserves).
Defined.

(* C5 at [Sample.rolling]: a decrement of 10 mm/s against a speed of 5 mm/s *)
Lemma friction_sample :
  let w := Sample.world Sample.ctrl2D (Some Sample.rolling) 0 in
  let S := Vec2.norm (Vec3.head2 (bodyVelocity Sample.rolling)) in
  let d := -1000 * simStepLength (controller w) / 1000 in
  ball w = Some Sample.rolling
  /\ is2D (controller w) = true
  /\ d <= 0
  /\ exists b',
      applyBallFriction w (-1000) = Some b'
      /\ bodyPosition b' = bodyPosition Sample.rolling
      /\ v3z (bodyVelocity b') = v3z (bodyVelocity Sample.rolling)
      /\ (S < - d -> Vec3.head2 (bodyVelocity b') = Vec2.Zero)
      /\ (- d <= S ->
          (exists k, 0 <= k /\ (0 < S + d -> 0 < k)
                     /\ Vec3.head2 (bodyVelocity b')
                        = Vec2.scale (Vec3.head2 (bodyVelocity Sample.rolling)) k)
          /\ Vec2.norm (Vec3.head2 (bodyVelocity b')) = S + d).
Proof.
  intros w S d.
  assert (Hd : -1000 * simStepLength (controller w) / 1000 <= 0) by (cbn; lra).
  split; [reflexivity|]. split; [reflexivity|]. split; [exact Hd|].
  exact (friction_clamps_at_zero w Sample.rolling (-1000) eq_refl eq_refl Hd).
Defined.

(* C8 at [Sample.first] and [Sample.posed]: robot2 as robot1 reports it *)
Lemma raw_pose_sample :
  let ws := worldState (getWorldState decimal_toInt Sample.robotsPerTeam
                                      Sample.wrapOnce Sample.first Sample.posed) in
  preserves_angle Sample.wrapOnce
  /\ In Sample.robot2 (firstTeamRobots Sample.first ++ secondTeamRobots Sample.first)
  /\ getPose2f Sample.posed Sample.robot2 = (true, mkPose2f 0 (mkVector2f 1000 0))
  /\ exists player n,
      In player (ownTeamPlayers ws ++ opponentTeamPlayers ws)
      /\ player = newGTPlayer Sample.wrapOnce Sample.first Sample.posed n Sample.robot2
      /\ upright player = true
      /\ (firstTeam Sample.first = true ->
          translation (pose player) = mkVector2f (-1000) 0
          /\ rotation (pose player) = Sample.wrapOnce PI
          /\ same_angle (rotation (pose player)) PI)
      /\ (firstTeam Sample.first = false ->
          pose player = mkPose2f 0 (mkVector2f 1000 0)).
Proof.
  intros ws.
  assert (Hin : In Sample.robot2
                   (firstTeamRobots Sample.first ++ secondTeamRobots Sample.first))
    by (left; reflexivity).
  split; [exact wrapOnce_preserves|]. split; [exact Hin|]. split; [reflexivity|].
  exact (raw_pose_read_per_team decimal_toInt Sample.robotsPerTeam Sample.wrapOnce
           Sample.first Sample.posed Sample.robot2 true wrapOnce_preserves Hin eq_refl).
Defined.

(* C9 as amended at [Sample.scene], built for robot6 *)
Lemma rosters_sample :
  resolveObject Sample.scene "RoboCup.robots" (compoundType Sample.ctrl3D)
  = Some [Sample.robot1; Sample.robot2; Sample.robot6]
  /\ resolveObject Sample.scene "RoboCup.extras" (compoundType Sample.ctrl3D)
     = Some [Sample.dummy1]
  /\ exists self,
      SimulatedRobot_new decimal_toInt Sample.robotsPerTeam Sample.ctrl3D
                         Sample.scene Sample.robot6
      = Some self
      /\ firstTeamRobots self = [Sample.robot1; Sample.robot2; Sample.dummy1]
      /\ secondTeamRobots self = []
      /\ ~ In Sample.robot6 (firstTeamRobots self)
      /\ ~ In Sample.robot6 (secondTeamRobots self).
Proof.
  split; [reflexivity|]. split; [reflexivity|].
  destruct (rosters_by_number decimal_toInt Sample.robotsPerTeam Sample.ctrl3D
              Sample.scene Sample.robot6 [Sample.robot1; Sample.robot2; Sample.robot6]
              [Sample.dummy1] eq_refl eq_refl)
    as (self & Hnew & Hf & Hs & _ & Ho1 & Ho2).
  exists self. split; [exact Hnew|].
  split; [exact Hf|]. split; [exact Hs|]. split; [exact Ho1 | exact Ho2].
Defined.

(** ** Further properties of the resolver, the rosters and the ball *)

Lemma lastIndexOf_from_app (c : ascii) (a b : string) (i found : Z) :
  lastIndexOf_from c (a ++ b) i found
  = lastIndexOf_from c b (i + Z.of_nat (String.length a))
                     (lastIndexOf_from c a i found).
Proof.
  revert i found. induction a as [|d a IH]; intros i found.
  - cbn. f_equal. lia.
  - cbn [String.append lastIndexOf_from String.length]. rewrite IH.
    f_equal. lia.
Qed.

Lemma lastIndexOf_from_lacks (c : ascii) (t : string) (i found : Z) :
  lacks c t = true -> lastIndexOf_from c t i found = found.
Proof.
  revert i found. induction t as [|d t IH]; intros i found H.
  - reflexivity.
  - cbn in H. apply andb_true_iff in H. destruct H as [Hd Ht].
    apply negb_true_iff in Hd. cbn. rewrite Hd. apply IH, Ht.
Qed.

Lemma drop_chars_app (a b : string) (m : nat) :
  drop_chars (String.length a + m) (a ++ b) = drop_chars m b.
Proof. induction a as [|d a IH]; [reflexivity | exact IH]. Qed.

Lemma lastIndexOf_dotted (g t : string) :
  lacks "." t = true ->
  lastIndexOf "." (g ++ String "." t) = Z.of_nat (String.length g).
Proof.
  intros Ht. unfold lastIndexOf. rewrite lastIndexOf_from_app.
  cbn [lastIndexOf_from]. rewrite Ascii.eqb_refl.
  rewrite lastIndexOf_from_lacks by exact Ht. lia.
Qed.

Section MoreProperties.

Variable toInt : string -> Z.
Variable robotsPerTeam : Z.
Variable normalize : R -> R.

Local Abbreviation numberOf := (getNumber toInt).
Local Abbreviation worldStateAfter := (getWorldState toInt robotsPerTeam normalize).
Local Abbreviation runCalls := (run toInt robotsPerTeam normalize).
Local Abbreviation construct := (SimulatedRobot_new toInt robotsPerTeam).

(** *** getNumber *)

(** X1: for a full name that ends in a dot followed by a dot-free tail, the
    number is [toInt] of the tail without its first five characters,
    whatever those five characters and whatever precedes the last dot. *)
Theorem getNumber_after_last_dot (id : nat) (g t : string) :
  lacks "." t = true ->
  numberOf (mkObject id (g ++ String "." t)) = toInt (drop_chars 5 t).
Proof.
  intros Ht. unfold getNumber. cbn [fullName].
  rewrite (lastIndexOf_dotted g t Ht). unfold remove0.
  replace (Z.to_nat (Z.of_nat (String.length g) + 6))
    with (String.length g + 6)%nat by lia.
  rewrite drop_chars_app. reflexivity.
Qed.

(** X2: for a full name without any dot, [lastIndexOf] is -1 and the number
    is [toInt] of the name without its first five characters. *)
Theorem getNumber_without_dot (id : nat) (s : string) :
  lacks "." s = true ->
  numberOf (mkObject id s) = toInt (drop_chars 5 s).
Proof.
  intros Hs. unfold getNumber. cbn [fullName].
  unfold lastIndexOf. rewrite lastIndexOf_from_lacks by exact Hs.
  reflexivity.
Qed.

(** *** The constructor *)


Lemma joinsFirst_spec (n : Z) (child : Object) :
  joinsFirst toInt robotsPerTeam n child = true
  <-> (numberOf child <> n /\ (numberOf child <= robotsPerTeam)%Z).
Proof.
  unfold joinsFirst. rewrite andb_true_iff, negb_true_iff, Z.eqb_neq, Z.leb_le.
  reflexivity.
Qed.

Lemma joinsSecond_spec (n : Z) (child : Object) :
  joinsSecond toInt robotsPerTeam n child = true
  <-> (numberOf child <> n /\ (robotsPerTeam < numberOf child)%Z).
Proof.
  unfold joinsSecond. rewrite andb_true_iff, !negb_true_iff, Z.eqb_neq, Z.leb_gt.
  reflexivity.
Qed.

Lemma filter_split_length {A : Type} (keep p : A -> bool) (l : list A) :
  (List.length (filter (fun a => keep a && p a) l)
   + List.length (filter (fun a => keep a && negb (p a)) l)
   = List.length (filter keep l))%nat.
Proof.
  induction l as [|a l IH]; [reflexivity|].
  cbn [filter]. destruct (keep a), (p a); cbn [andb negb List.length]; lia.
Qed.

Lemma roster_members
      (c : Controller) (scene : Scene) (owner : Object)
      (robots extras : list Object) (self : SimulatedRobot) :
  resolveObject scene "RoboCup.robots" (compoundType c) = Some robots ->
  resolveObject scene "RoboCup.extras" (compoundType c) = Some extras ->
  construct c scene owner = Some self ->
  (firstTeam self = true <-> (numberOf owner <= robotsPerTeam)%Z)
  /\ Forall (fun o => numberOf o <> numberOf owner /\ (numberOf o <= robotsPerTeam)%Z)
            (firstTeamRobots self)
  /\ Forall (fun o => numberOf o <> numberOf owner /\ (robotsPerTeam < numberOf o)%Z)
            (secondTeamRobots self).
Proof.
  intros Hr He Hnew.
  destruct (SimulatedRobot_new_rosters toInt robotsPerTeam c scene owner robots extras Hr He)
    as (self0 & Hnew0 & _ & _ & Hteam & Hf & Hs).
  rewrite Hnew in Hnew0. injection Hnew0 as <-.
  split; [rewrite Hteam; unfold isFirstTeam; apply Z.leb_le|]. split.
  - rewrite Hf. apply Forall_forall. intros o Ho.
    apply filter_In in Ho. apply joinsFirst_spec, Ho.
  - rewrite Hs. apply Forall_forall. intros o Ho.
    apply filter_In in Ho. apply joinsSecond_spec, Ho.
Qed.

(** X4: in a constructed object the team flag says whether the owner's
    number is at most [robotsPerTeam]; every first-roster entry has a number
    that is at most [robotsPerTeam], every second-roster entry a number above
    it, none has the owner's number, no object is in both rosters, and the
    two rosters together have as many entries as there are children whose
    number differs from the owner's. *)
Theorem constructed_rosters_invariant
        (c : Controller) (scene : Scene) (owner : Object)
        (robots extras : list Object) (self : SimulatedRobot) :
  resolveObject scene "RoboCup.robots" (compoundType c) = Some robots ->
  resolveObject scene "RoboCup.extras" (compoundType c) = Some extras ->
  construct c scene owner = Some self ->
  robot self = owner
  /\ robotNumber self = numberOf owner
  /\ (firstTeam self = true <-> (numberOf owner <= robotsPerTeam)%Z)
  /\ Forall (fun o => numberOf o <> numberOf owner /\ (numberOf o <= robotsPerTeam)%Z)
            (firstTeamRobots self)
  /\ Forall (fun o => numberOf o <> numberOf owner /\ (robotsPerTeam < numberOf o)%Z)
            (secondTeamRobots self)
  /\ (forall o, In o (firstTeamRobots self) -> ~ In o (secondTeamRobots self))
  /\ (List.length (firstTeamRobots self) + List.length (secondTeamRobots self)
      = List.length (filter (fun o => negb (numberOf o =? numberOf owner)%Z)
                            (robots ++ extras)))%nat.
Proof.
  intros Hr He Hnew.
  destruct (roster_members c scene owner robots extras self Hr He Hnew)
    as (Hteam & F1 & F2).
  destruct (SimulatedRobot_new_rosters toInt robotsPerTeam c scene owner robots extras Hr He)
    as (self0 & Hnew0 & Hrob & Hnum & _ & Hf & Hs).
  rewrite Hnew in Hnew0. injection Hnew0 as <-.
  split; [exact Hrob|]. split; [exact Hnum|]. split; [exact Hteam|].
  split; [exact F1|]. split; [exact F2|]. split.
  - intros o H1 H2.
    rewrite Forall_forall in F1, F2.
    destruct (F1 o H1) as [_ Hle]. destruct (F2 o H2) as [_ Hgt]. lia.
  - rewrite Hf, Hs. unfold joinsFirst, joinsSecond.
    apply (filter_split_length
             (fun o => negb (numberOf o =? numberOf owner)%Z)
             (fun o => (numberOf o <=? robotsPerTeam)%Z)).
Qed.

(** *** What a call leaves in the object *)

Lemma ballBlock_with_ball (self : SimulatedRobot) (w : World) (b : Body) :
  ball w = Some b ->
  exists v curve b' evs,
    ballBlock self w
    = ([mkBall (gtBallPosition self (controller w) b) v],
       mkSimulatedRobot (robot self) (firstTeam self) (robotNumber self)
         (firstTeamRobots self) (secondTeamRobots self)
         (gtBallPosition self (controller w) b) (currentSystemTime w)
         (Vec2.neqb (Vec3.head2 v) Vec2.Zero) curve,
       Some b', evs).
Proof.
  intros Hb.
  destruct (ballBlock_cases self w b Hb) as [Hheld | [H0 H1]].
  - rewrite (ballBlock_held self w b Hb Hheld).
    exists Vec3.Zero, (curveVel self), b, [].
    assert (E : Vec2.neqb (Vec3.head2 Vec3.Zero) Vec2.Zero = false)
      by (apply Vec2_neqb_false; reflexivity).
    rewrite E. reflexivity.
  - destruct (is2D (controller w)) eqn:H2.
    + rewrite (ballBlock_sampled_2D self w b Hb H0 H1 H2).
      do 4 eexists. reflexivity.
    + rewrite (ballBlock_sampled_3D self w b Hb H0 H1 H2).
      do 4 eexists. reflexivity.
Qed.

(** X5: with a ball registered, a call stores the sample it reports:
    afterwards [lastBallPosition] is the reported position, [lastBallTime]
    is the current time and [hadVelocity] tells whether the reported
    horizontal velocity is nonzero, in every branch and on both backends. *)
Theorem hidden_state_follows_sample (self : SimulatedRobot) (w : World) (b : Body) :
  ball w = Some b ->
  let r := worldStateAfter self w in
  exists gtBall,
    balls (worldState r) = [gtBall]
    /\ lastBallPosition (self' r) = position gtBall
    /\ lastBallTime (self' r) = currentSystemTime w
    /\ (hadVelocity (self' r) = true <-> Vec3.head2 (velocity gtBall) <> Vec2.Zero).
Proof.
  intros Hb r.
  destruct (getWorldState_ballBlock toInt robotsPerTeam normalize self w)
    as (Hballs & Hself & _).
  destruct (ballBlock_with_ball self w b Hb) as (v & curve & b' & evs & E).
  fold r in Hballs, Hself. rewrite E in Hballs, Hself. cbn [fst snd] in Hballs, Hself.
  eexists. split; [exact Hballs|]. rewrite Hself.
  cbn [lastBallPosition lastBallTime hadVelocity position velocity].
  split; [reflexivity|]. split; [reflexivity|]. apply Vec2_neqb_true.
Qed.

(** X6: without a ball a call leaves the object as it was (the previous
    sample and its time stamp are kept), reports no ball and makes no call
    to the simulator or the random source. *)
Theorem no_ball_no_change (self : SimulatedRobot) (w : World) :
  ball w = None ->
  let r := worldStateAfter self w in
  self' r = self /\ balls (worldState r) = [] /\ events r = [] /\ ball' r = None.
Proof.
  intros Hb r.
  destruct (getWorldState_ballBlock toInt robotsPerTeam normalize self w)
    as (Hballs & Hself & Hball' & Hev).
  fold r in Hballs, Hself, Hball', Hev.
  unfold ballBlock in *. rewrite Hb in *. cbn [fst snd] in *.
  repeat split; assumption.
Qed.

Lemma getWorldState_keeps_identity (self : SimulatedRobot) (w : World) :
  let s := self' (worldStateAfter self w) in
  robot s = robot self /\ firstTeam s = firstTeam self
  /\ robotNumber s = robotNumber self
  /\ firstTeamRobots s = firstTeamRobots self
  /\ secondTeamRobots s = secondTeamRobots self.
Proof.
  cbv zeta.
  destruct (getWorldState_ballBlock toInt robotsPerTeam normalize self w)
    as (_ & Hself & _).
  rewrite Hself.
  destruct (ball w) as [b|] eqn:Hb.
  - destruct (ballBlock_with_ball self w b Hb) as (v & curve & b' & evs & E).
    rewrite E. repeat split; reflexivity.
  - unfold ballBlock. rewrite Hb. repeat split; reflexivity.
Qed.

(** X7: over any sequence of calls, with or without a ball, every state the
    object passes through has the owner, the team flag, the number and both
    rosters of the object the sequence started with. *)
Theorem run_keeps_rosters (calls : list World) :
  forall (self : SimulatedRobot) (i : nat) (r : Result),
    nth_error (runCalls self calls) i = Some r ->
    robot (self' r) = robot self
    /\ firstTeam (self' r) = firstTeam self
    /\ robotNumber (self' r) = robotNumber self
    /\ firstTeamRobots (self' r) = firstTeamRobots self
    /\ secondTeamRobots (self' r) = secondTeamRobots self.
Proof.
  induction calls as [|w rest IH]; intros self i r Hr.
  - destruct i; discriminate.
  - pose proof (getWorldState_keeps_identity self w) as K. cbv zeta in K.
    destruct i as [|i].
    + cbn in Hr. injection Hr as <-. exact K.
    + cbn [run nth_error] in Hr.
      destruct (IH _ i r Hr) as (A1 & A2 & A3 & A4 & A5).
      destruct K as (K1 & K2 & K3 & K4 & K5).
      repeat split; congruence.
Qed.

Lemma sampled_ball_reported (self : SimulatedRobot) (w : World) (b : Body) :
  ball w = Some b ->
  lastBallTime self <> 0%Z -> lastBallTime self <> currentSystemTime w ->
  balls (worldState (worldStateAfter self w))
  = [mkBall (gtBallPosition self (controller w) b) (sampledVelocity self w b)].
Proof.
  intros Hb H0 H1.
  destruct (getWorldState_ballBlock toInt robotsPerTeam normalize self w) as (Hballs & _).
  rewrite Hballs.
  destruct (is2D (controller w)) eqn:H2.
  - rewrite (ballBlock_sampled_2D self w b Hb H0 H1 H2). reflexivity.
  - rewrite (ballBlock_sampled_3D self w b Hb H0 H1 H2). reflexivity.
Qed.

Lemma held_ball_reported (self : SimulatedRobot) (w : World) (b : Body) :
  ball w = Some b ->
  lastBallTime self = 0%Z \/ lastBallTime self = currentSystemTime w ->
  balls (worldState (worldStateAfter self w))
  = [mkBall (gtBallPosition self (controller w) b) Vec3.Zero].
Proof.
  intros Hb Hheld.
  destruct (getWorldState_ballBlock toInt robotsPerTeam normalize self w) as (Hballs & _).
  rewrite Hballs, (ballBlock_held self w b Hb Hheld). reflexivity.
Qed.

(** X8: two calls in a row with a ball, the first at a nonzero time stamp
    and the second at a later one: the velocity the second call reports is
    1000 times the difference of the two reported positions over the
    difference of the two time stamps. *)
Theorem velocity_between_two_calls (self : SimulatedRobot) (w1 w2 : World) (b1 b2 : Body) :
  ball w1 = Some b1 -> ball w2 = Some b2 ->
  is_unsigned (currentSystemTime w1) -> is_unsigned (currentSystemTime w2) ->
  (0 < currentSystemTime w1 < currentSystemTime w2)%Z ->
  let r1 := worldStateAfter self w1 in
  let r2 := worldStateAfter (self' r1) w2 in
  exists g1 g2,
    balls (worldState r1) = [g1]
    /\ balls (worldState r2) = [g2]
    /\ velocity g2
       = Vec3.div (Vec3.lscale 1000 (Vec3.sub (position g2) (position g1)))
                  (IZR (currentSystemTime w2 - currentSystemTime w1)).
Proof.
  intros Hb1 Hb2 U1 U2 Ht r1 r2.
  destruct (getWorldState_ballBlock toInt robotsPerTeam normalize self w1)
    as (Hballs1 & Hself1 & _).
  destruct (ballBlock_with_ball self w1 b1 Hb1) as (v & curve & b' & evs & E).
  fold r1 in Hballs1, Hself1. rewrite E in Hballs1, Hself1.
  cbn [fst snd] in Hballs1, Hself1.
  assert (Ht1 : lastBallTime (self' r1) = currentSystemTime w1)
    by (rewrite Hself1; reflexivity).
  assert (Hp1 : lastBallPosition (self' r1) = gtBallPosition self (controller w1) b1)
    by (rewrite Hself1; reflexivity).
  assert (N0 : lastBallTime (self' r1) <> 0%Z) by (rewrite Ht1; lia).
  assert (N1 : lastBallTime (self' r1) <> currentSystemTime w2) by (rewrite Ht1; lia).
  pose proof (sampled_ball_reported (self' r1) w2 b2 Hb2 N0 N1) as Hballs2.
  fold r2 in Hballs2.
  eexists. eexists. split; [exact Hballs1|]. split; [exact Hballs2|].
  cbn [position velocity]. unfold sampledVelocity.
  rewrite Hp1, Ht1, usub_plain by (auto; lia). reflexivity.
Qed.

(** X9: a sample taken at time stamp 0 does not count as a previous sample:
    the call after it reports the zero velocity and commands nothing,
    whatever the two positions and the second time stamp are. *)
Theorem sample_at_time_zero_forgotten
        (self : SimulatedRobot) (w1 w2 : World) (b1 b2 : Body) :
  ball w1 = Some b1 -> ball w2 = Some b2 ->
  currentSystemTime w1 = 0%Z ->
  let r1 := worldStateAfter self w1 in
  let r2 := worldStateAfter (self' r1) w2 in
  exists g2,
    balls (worldState r2) = [g2] /\ velocity g2 = Vec3.Zero
    /\ events r2 = [] /\ curveVel (self' r2) = curveVel (self' r1).
Proof.
  intros Hb1 Hb2 T0 r1 r2.
  destruct (getWorldState_ballBlock toInt robotsPerTeam normalize self w1)
    as (_ & Hself1 & _).
  destruct (ballBlock_with_ball self w1 b1 Hb1) as (v & curve & b' & evs & E).
  fold r1 in Hself1. rewrite E in Hself1. cbn [fst snd] in Hself1.
  assert (Held : lastBallTime (self' r1) = 0%Z
                 \/ lastBallTime (self' r1) = currentSystemTime w2)
    by (left; rewrite Hself1; exact T0).
  destruct (getWorldState_ballBlock toInt robotsPerTeam normalize (self' r1) w2)
    as (Hballs2 & Hself2 & _ & Hev2).
  fold r2 in Hballs2, Hself2, Hev2.
  rewrite (ballBlock_held (self' r1) w2 b2 Hb2 Held) in Hballs2, Hself2, Hev2.
  cbn [fst snd] in Hballs2, Hself2, Hev2.
  eexists. split; [exact Hballs2|]. split; [reflexivity|]. split; [exact Hev2|].
  rewrite Hself2. reflexivity.
Qed.

Lemma usub_wrapped (a b : Z) :
  is_unsigned a -> is_unsigned b -> (a < b)%Z -> usub a b = (a - b + UINT_MOD)%Z.
Proof.
  unfold is_unsigned, usub, UINT_MOD; intros Ha Hb Hlt.
  replace (a - b)%Z with ((a - b + 2 ^ 32) + (-1) * 2 ^ 32)%Z at 1 by lia.
  rewrite Z.mod_add by lia. apply Z.mod_small. lia.
Qed.

(** X10: when the clock value is below the stored time stamp (the counter
    wrapped, or the clock went back), a velocity is still computed and the
    divisor is the wrapped difference currentTime - lastBallTime + 2^32,
    which is positive. *)
Theorem velocity_when_clock_below_last
        (self : SimulatedRobot) (w : World) (b : Body) :
  ball w = Some b ->
  is_unsigned (lastBallTime self) -> is_unsigned (currentSystemTime w) ->
  (currentSystemTime w < lastBallTime self)%Z ->
  exists gtBall,
    balls (worldState (worldStateAfter self w)) = [gtBall]
    /\ velocity gtBall
       = Vec3.div (Vec3.lscale 1000 (Vec3.sub (position gtBall) (lastBallPosition self)))
                  (IZR (currentSystemTime w - lastBallTime self + UINT_MOD))
    /\ 0 < IZR (currentSystemTime w - lastBallTime self + UINT_MOD).
Proof.
  intros Hb Ul Uc Hlt.
  assert (N0 : lastBallTime self <> 0%Z) by (unfold is_unsigned in *; lia).
  assert (N1 : lastBallTime self <> currentSystemTime w) by lia.
  rewrite (sampled_ball_reported self w b Hb N0 N1).
  eexists. split; [reflexivity|]. cbn [position velocity]. unfold sampledVelocity.
  rewrite (usub_wrapped _ _ Uc Ul Hlt). split; [reflexivity|].
  apply IZR_lt. unfold is_unsigned in *. lia.
Qed.

(** X11: the reported ball position is the absolute position of
    [getAbsoluteBallPosition] in the horizontal plane, negated for a
    first-team object; its height is 50 on the 2D backend and 1000 times the
    body's height on the 3D backend. *)
Theorem ball_position_frames
        (self : SimulatedRobot) (w : World) (b : Body) (ballPosition : Vector2f) :
  ball w = Some b ->
  let absolute := snd (getAbsoluteBallPosition w ballPosition) in
  exists gtBall,
    balls (worldState (worldStateAfter self w)) = [gtBall]
    /\ Vec3.head2 (position gtBall)
       = (if firstTeam self then Vec2.neg absolute else absolute)
    /\ v3z (position gtBall)
       = (if is2D (controller w) then 50 else v3z (bodyPosition b) * 1000).
Proof.
  intros Hb absolute.
  destruct (getWorldState_ballBlock toInt robotsPerTeam normalize self w) as (Hballs & _).
  destruct (ballBlock_with_ball self w b Hb) as (v & curve & b' & evs & E).
  rewrite E in Hballs. cbn [fst] in Hballs.
  eexists. split; [exact Hballs|]. cbn [position].
  subst absolute. unfold getAbsoluteBallPosition. rewrite Hb. cbn [snd].
  unfold gtBallPosition, getPosition3D, getPosition, Vec3.scale, Vec2.scale,
    Vec3.setZ, Vec3.scaleHead2, Vec3.head2, Vec2.neg.
  destruct (is2D (controller w)), (firstTeam self); cbn [v3x v3y v3z v2x v2y];
    split; try reflexivity; f_equal; ring.
Qed.

(** *** What a call commands *)

Lemma norm_rotate (v : Vector2f) (alpha : R) :
  Vec2.norm (Vec2.rotate v alpha) = Vec2.norm v.
Proof.
  unfold Vec2.norm, Vec2.rotate. cbn [v2x v2y]. f_equal.
  pose proof (sin2_cos2 alpha) as H. unfold Rsqr in H.
  replace ((cos alpha * v2x v - sin alpha * v2y v) * (cos alpha * v2x v - sin alpha * v2y v)
           + (sin alpha * v2x v + cos alpha * v2y v) * (sin alpha * v2x v + cos alpha * v2y v))
    with ((sin alpha * sin alpha + cos alpha * cos alpha)
          * (v2x v * v2x v + v2y v * v2y v)) by ring.
  rewrite H. ring.
Qed.

Lemma rotate_0 (v : Vector2f) : Vec2.rotate v 0 = v.
Proof.
  destruct v as [x y]. unfold Vec2.rotate. cbn [v2x v2y].
  rewrite cos_0, sin_0. f_equal; ring.
Qed.

(** X12: a call that computes the finite difference on the 3D backend hands
    the simulator exactly one velocity: the ball's own velocity with its
    horizontal part turned by the curve angle the call leaves in
    [curveVel]; the horizontal speed, the vertical entry and the position of
    the body are the same as before. *)
Theorem curve_turns_velocity_only (self : SimulatedRobot) (w : World) (b : Body) :
  ball w = Some b ->
  is2D (controller w) = false ->
  lastBallTime self <> 0%Z -> lastBallTime self <> currentSystemTime w ->
  let r := worldStateAfter self w in
  exists velo,
    velocitiesSet r = [velo]
    /\ ball' r = Some (mkBody (bodyPosition b) velo)
    /\ Vec3.head2 velo = Vec2.rotate (Vec3.head2 (bodyVelocity b)) (curveVel (self' r))
    /\ v3z velo = v3z (bodyVelocity b)
    /\ Vec2.norm (Vec3.head2 velo) = Vec2.norm (Vec3.head2 (bodyVelocity b)).
Proof.
  intros Hb H2 H0 H1 r.
  destruct (getWorldState_ballBlock toInt robotsPerTeam normalize self w)
    as (_ & Hself & Hball' & Hev).
  fold r in Hself, Hball', Hev. unfold velocitiesSet.
  pose proof (ballBlock_sampled_3D self w b Hb H0 H1 H2) as E. cbv zeta in E.
  set (roll := negb (hadVelocity self)
               && Vec2.neqb (Vec3.head2 (sampledVelocity self w b)) Vec2.Zero) in E.
  set (curve := if Vec2.eqb (Vec3.head2 (sampledVelocity self w b)) Vec2.Zero
                then 0 else _) in E.
  set (direct := Vec2.rotate (Vec3.head2 (bodyVelocity b)) curve) in E.
  rewrite Hself, Hball', Hev, E. cbn [fst snd curveVel].
  exists (mkVector3f (v2x direct) (v2y direct) (v3z (bodyVelocity b))).
  split; [destruct roll; reflexivity|].
  split; [reflexivity|].
  assert (Hh : forall d z, Vec3.head2 (mkVector3f (v2x d) (v2y d) z) = d)
    by (intros [x y] z; reflexivity).
  rewrite Hh. cbn [v3z].
  split; [reflexivity|]. split; [reflexivity|].
  apply norm_rotate.
Qed.

(** X13: when such a call finds the horizontal velocity exactly zero, the
    velocity it hands the simulator is the ball's own velocity: the ball
    body is left as it was. *)
Theorem ball_at_rest_left_alone (self : SimulatedRobot) (w : World) (b : Body) :
  ball w = Some b ->
  is2D (controller w) = false ->
  lastBallTime self <> 0%Z -> lastBallTime self <> currentSystemTime w ->
  let r := worldStateAfter self w in
  horizontalVelocities r = [Vec2.Zero] ->
  velocitiesSet r = [bodyVelocity b] /\ ball' r = ball w /\ rolled r = [].
Proof.
  intros Hb H2 H0 H1 r Hz.
  destruct (call_sampled_3D toInt robotsPerTeam normalize self w b Hb H0 H1 H2)
    as (Hv & Hr & _).
  fold r in Hv, Hr.
  assert (Ez : Vec3.head2 (sampledVelocity self w b) = Vec2.Zero)
    by (rewrite Hv in Hz; congruence).
  assert (Ee : Vec2.eqb (Vec3.head2 (sampledVelocity self w b)) Vec2.Zero = true)
    by (apply Vec2_eqb_true; exact Ez).
  assert (En : Vec2.neqb (Vec3.head2 (sampledVelocity self w b)) Vec2.Zero = false)
    by (apply Vec2_neqb_false; exact Ez).
  destruct (getWorldState_ballBlock toInt robotsPerTeam normalize self w)
    as (_ & _ & Hball' & Hev).
  fold r in Hball', Hev. unfold velocitiesSet.
  rewrite Hb, Hr, Hball', Hev, (ballBlock_sampled_3D self w b Hb H0 H1 H2).
  cbn [fst snd]. rewrite Ee, En, andb_false_r, rotate_0.
  destruct b as [p [vx vy vz]]. cbn. repeat split; reflexivity.
Qed.

(** X14: a call commands nothing, neither the simulator nor the random
    source, and leaves the ball body alone when there is no ball, on the 2D
    backend, on a first sample and on an unchanged time stamp. *)
Theorem simulator_untouched (self : SimulatedRobot) (w : World) :
  ball w = None \/ is2D (controller w) = true
  \/ lastBallTime self = 0%Z \/ lastBallTime self = currentSystemTime w ->
  let r := worldStateAfter self w in
  events r = [] /\ ball' r = ball w.
Proof.
  intros Hcase r.
  destruct (getWorldState_ballBlock toInt robotsPerTeam normalize self w)
    as (_ & _ & Hball' & Hev).
  fold r in Hball', Hev. rewrite Hball', Hev.
  destruct (ball w) as [b|] eqn:Hb.
  - destruct (ballBlock_cases self w b Hb) as [Hheld | [H0 H1]].
    + rewrite (ballBlock_held self w b Hb Hheld). split; reflexivity.
    + destruct Hcase as [Hn | [H2 | [Hz | Hs]]]; try discriminate; try contradiction.
      rewrite (ballBlock_sampled_2D self w b Hb H0 H1 H2). split; reflexivity.
  - unfold ballBlock. rewrite Hb. split; reflexivity.
Qed.

Lemma curve_zero_step (self : SimulatedRobot) (w : World) :
  ball3D w ->
  is_unsigned (lastBallTime self) ->
  (lastBallTime self < currentSystemTime w)%Z \/ lastBallTime self = 0%Z ->
  (lastBallTime self = 0%Z -> curveVel self = 0) ->
  let r := worldStateAfter self w in
  (horizontalVelocities r = [Vec2.Zero] -> curveVel (self' r) = 0)
  /\ (lastBallTime (self' r) = 0%Z -> curveVel (self' r) = 0)
  /\ lastBallTime (self' r) = currentSystemTime w.
Proof.
  intros (Hball & H2 & Uc) Ul Hord Hfresh r.
  destruct (ball w) as [b|] eqn:Hb; [clear Hball | contradiction Hball; reflexivity].
  destruct (ballBlock_cases self w b Hb) as [Hheld | [H0 H1]].
  - destruct (call_held toInt robotsPerTeam normalize self w b Hb Hheld)
      as (_ & _ & Hc & _ & Ht & _).
    fold r in Hc, Ht.
    assert (Z0 : lastBallTime self = 0%Z) by (destruct Hheld, Hord; lia).
    rewrite Hc, (Hfresh Z0). repeat split; auto.
  - destruct (call_sampled_3D toInt robotsPerTeam normalize self w b Hb H0 H1 H2)
      as (Hv & _ & Hc & _ & Ht & _).
    fold r in Hv, Hc, Ht. split; [|split; [|exact Ht]].
    + intros Hz.
      assert (Ez : Vec3.head2 (sampledVelocity self w b) = Vec2.Zero)
        by (rewrite Hv in Hz; congruence).
      apply Vec2_eqb_true in Ez. rewrite Hc, Ez. reflexivity.
    + rewrite Ht. intros Hc0. unfold is_unsigned in Ul. destruct Hord; lia.
Qed.

Lemma curve_zero_along_run (calls : list World) :
  forall self : SimulatedRobot,
    Forall ball3D calls ->
    increasing (map currentSystemTime calls) ->
    is_unsigned (lastBallTime self) ->
    startsAfter (lastBallTime self) calls ->
    (lastBallTime self = 0%Z -> curveVel self = 0) ->
    forall i r,
      nth_error (runCalls self calls) i = Some r ->
      horizontalVelocities r = [Vec2.Zero] -> curveVel (self' r) = 0.
Proof.
  induction calls as [|w rest IH]; intros self Hall Hinc Ul Hstart Hfresh i r Hr.
  - destruct i; discriminate.
  - inversion Hall as [|? ? Bw Brest]; subst.
    destruct (curve_zero_step self w Bw Ul Hstart Hfresh) as (Hq & Hp & Ht).
    destruct i as [|i].
    + cbn in Hr. injection Hr as <-. exact Hq.
    + cbn [run nth_error] in Hr.
      apply (IH (self' (worldStateAfter self w))) with (i := i); auto.
      * destruct rest as [|w' rest']; [exact I|]. destruct Hinc as [_ H]. exact H.
      * rewrite Ht. destruct Bw as (_ & _ & U). exact U.
      * destruct rest as [|w' rest']; [exact I|]. cbn [startsAfter].
        rewrite Ht. destruct Hinc as [Hlt _]. left. exact Hlt.
Qed.

(** X19: for an object without a previous sample and without a curve, over
    any sequence of calls on the 3D backend with a ball present and strictly
    increasing time stamps, [curveVel] is zero after every call that reports
    zero horizontal velocity. *)
Theorem curve_zero_at_rest_along_run (self : SimulatedRobot) (calls : list World) :
  lastBallTime self = 0%Z -> curveVel self = 0 ->
  Forall ball3D calls ->
  increasing (map currentSystemTime calls) ->
  forall i r,
    nth_error (runCalls self calls) i = Some r ->
    horizontalVelocities r = [Vec2.Zero] -> curveVel (self' r) = 0.
Proof.
  intros Ht Hc Hall Hinc.
  apply curve_zero_along_run; auto.
  - rewrite Ht. unfold is_unsigned, UINT_MOD. lia.
  - destruct calls; [exact I | right; exact Ht].
Qed.

(** *** Placement *)

(** X15: with a ball registered, [moveBallPerTeam] moves the ball once and
    resets its dynamics exactly when asked to; a body at the position it
    commands is then reported, by any object of the same team, at the
    position that was asked for, on the 3D backend, and at that position
    with the height replaced by 50 on the 2D backend. *)
Theorem ball_placement_read_back
        (self : SimulatedRobot) (w : World) (pos : Vector3f) (resetDynamics : bool)
        (b : Body) :
  ball w = Some b ->
  exists q,
    moveBallPerTeam self w pos resetDynamics
    = EvMove q :: (if resetDynamics then [EvResetDynamics] else [])
    /\ forall (reader : SimulatedRobot) (w' : World) (b' : Body),
        firstTeam reader = firstTeam self ->
        ball w' = Some b' -> bodyPosition b' = q ->
        exists gtBall,
          balls (worldState (worldStateAfter reader w')) = [gtBall]
          /\ position gtBall
             = (if is2D (controller w') then Vec3.setZ pos 50 else pos).
Proof.
  intros Hb. unfold moveBallPerTeam, moveBall. rewrite Hb.
  eexists. split; [reflexivity|].
  intros reader w' b' Hteam Hb' Hq.
  destruct (getWorldState_ballBlock toInt robotsPerTeam normalize reader w') as (Hballs & _).
  destruct (ballBlock_with_ball reader w' b' Hb') as (v & curve & b'' & evs & E).
  rewrite E in Hballs. cbn [fst] in Hballs.
  eexists. split; [exact Hballs|]. cbn [position].
  unfold gtBallPosition, getPosition3D. rewrite Hteam, Hq.
  destruct pos as [x y z].
  unfold Vec3.scale, Vec3.setZ, Vec3.scaleHead2, Vec3.ofHead2, Vec3.head2, Vec2.neg.
  destruct (is2D (controller w')), (firstTeam self); cbn [v3x v3y v3z v2x v2y];
    f_equal; lra.
Qed.

(** X16: applying the first-team placement transform of [moveRobotPerTeam]
    to its own result gives back the position and the roll and pitch
    entries exactly and the yaw up to whole turns; the two flags are passed
    on unchanged. *)
Theorem placement_twice (self : SimulatedRobot) (pos rot : Vector3f)
        (changeRotation resetDynamics : bool) :
  preserves_angle normalize ->
  let once := moveRobotPerTeam normalize self pos rot changeRotation resetDynamics in
  let twice := moveRobotPerTeam normalize self (mr_pos once) (mr_rot once)
                                (mr_changeRotation once) (mr_resetDynamics once) in
  mr_pos twice = pos
  /\ Vec3.head2 (mr_rot twice) = Vec3.head2 rot
  /\ same_angle (v3z (mr_rot twice)) (v3z rot)
  /\ mr_changeRotation twice = changeRotation
  /\ mr_resetDynamics twice = resetDynamics.
Proof.
  intros Hn. cbv zeta. unfold moveRobotPerTeam.
  cbn [mr_pos mr_rot mr_changeRotation mr_resetDynamics].
  destruct pos as [x y z], rot as [rx ry rz].
  destruct (firstTeam self);
    unfold Vec3.ofHead2, Vec3.head2, Vec2.neg; cbn [v3x v3y v3z v2x v2y].
  - split; [f_equal; ring|]. split; [reflexivity|].
    split; [|split; reflexivity].
    destruct (Hn (rz + PI)) as [k1 E1].
    destruct (Hn (normalize (rz + PI) + PI)) as [k2 E2].
    exists (1 + k1 + k2)%Z. rewrite E2, E1, !plus_IZR. ring.
  - split; [reflexivity|]. split; [reflexivity|].
    split; [exists 0%Z; ring | split; reflexivity].
Qed.

(** *** Friction over several steps *)

Lemma afterFriction_speed (w : World) (friction : R) :
  is2D (controller w) = true ->
  friction * simStepLength (controller w) / 1000 <= 0 ->
  ballSpeed2D (afterFriction w friction)
  = Rmax 0 (ballSpeed2D w + friction * simStepLength (controller w) / 1000).
Proof.
  intros H2 Hd. unfold ballSpeed2D, afterFriction. cbn [ball].
  unfold applyBallFriction. rewrite H2.
  destruct (ball w) as [b|]; cbn [negb].
  - set (S := Vec2.norm (Vec3.head2 (bodyVelocity b))).
    set (d := friction * simStepLength (controller w) / 1000) in *.
    assert (HS : 0 <= S) by apply norm_nonneg.
    assert (Hh : forall u c, Vec3.head2 (Vec3.ofHead2 u c) = u)
      by (intros [ux uy] c; reflexivity).
    cbn [bodyVelocity]. rewrite Hh.
    destruct (Rleb (S + d) 0) eqn:Hle.
    + apply Rleb_true in Hle. rewrite norm_Zero, Rmax_left by exact Hle. reflexivity.
    + apply Rleb_false in Hle.
      assert (Spos : 0 < S) by lra.
      assert (Kpos : 0 < (S + d) / S) by (apply Rdiv_lt_0_compat; lra).
      rewrite norm_scale by lra. fold S.
      rewrite Rmax_right by lra. field. lra.
  - rewrite Rmax_left by lra. reflexivity.
Qed.

Lemma Rmax_friction_step (a d k : R) :
  d <= 0 -> 0 <= k ->
  Rmax 0 (Rmax 0 (a + d) + k * d) = Rmax 0 (a + (k + 1) * d).
Proof.
  intros Hd Hk. assert (Hkd : k * d <= 0) by nra.
  unfold Rmax.
  destruct (Rle_dec 0 (a + d)); destruct (Rle_dec 0 (a + d + k * d));
    destruct (Rle_dec 0 (0 + k * d)); destruct (Rle_dec 0 (a + (k + 1) * d)); lra.
Qed.

(** X17: on the 2D backend, with a friction decrement d per step that is
    not positive, the ball speed after n calls of [applyBallFriction] is
    max(0, S + n * d) for the initial speed S (0 without a ball): the speed
    never grows, and the ball is at rest from the first step at which
    S + n * d is not positive. *)
Theorem friction_after_steps (n : nat) (w : World) (friction : R) :
  is2D (controller w) = true ->
  friction * simStepLength (controller w) / 1000 <= 0 ->
  ballSpeed2D (frictionSteps n w friction)
  = Rmax 0 (ballSpeed2D w + INR n * (friction * simStepLength (controller w) / 1000)).
Proof.
  revert w. induction n as [|n IH]; intros w H2 Hd.
  - cbn [frictionSteps INR]. rewrite Rmult_0_l, Rplus_0_r.
    rewrite Rmax_right; [reflexivity|].
    unfold ballSpeed2D. destruct (ball w); [apply norm_nonneg | lra].
  - cbn [frictionSteps].
    rewrite IH by (unfold afterFriction; cbn [controller]; assumption).
    rewrite afterFriction_speed by assumption.
    unfold afterFriction at 1. cbn [controller].
    rewrite Rmax_friction_step by (auto; apply pos_INR).
    rewrite S_INR. reflexivity.
Qed.

(** *** Constructor and snapshot together *)

(** X18: for a constructed object and any call, no own-team player of the
    snapshot carries the owner's reported number, first-roster players have
    numbers of at most [robotsPerTeam] and second-roster players have
    numbers of at least 1; the own-team list is the one of the first roster
    exactly when the owner's parsed number is at most [robotsPerTeam]. *)
Theorem snapshot_numbers_of_constructed
        (c : Controller) (scene : Scene) (owner : Object) (self : SimulatedRobot)
        (w : World) :
  construct c scene owner = Some self ->
  let ws := worldState (worldStateAfter self w) in
  Forall (fun p => (number p <= robotsPerTeam)%Z) (firstTeamPlayers self ws)
  /\ Forall (fun p => (1 <= number p)%Z) (secondTeamPlayers self ws)
  /\ ((numberOf owner <= robotsPerTeam)%Z ->
      ownTeamPlayers ws = firstTeamPlayers self ws
      /\ opponentTeamPlayers ws = secondTeamPlayers self ws
      /\ Forall (fun p => number p <> numberOf owner) (ownTeamPlayers ws))
  /\ ((robotsPerTeam < numberOf owner)%Z ->
      ownTeamPlayers ws = secondTeamPlayers self ws
      /\ opponentTeamPlayers ws = firstTeamPlayers self ws
      /\ Forall (fun p => number p <> (numberOf owner - robotsPerTeam)%Z)
                (ownTeamPlayers ws)).
Proof.
  intros Hnew ws.
  assert (Hgroups : exists robots extras,
             resolveObject scene "RoboCup.robots" (compoundType c) = Some robots
             /\ resolveObject scene "RoboCup.extras" (compoundType c) = Some extras).
  { unfold SimulatedRobot_new in Hnew. fold (compoundType c) in Hnew.
    destruct (resolveObject scene "RoboCup.robots" (compoundType c)) as [robots|];
      [|discriminate].
    destruct (resolveObject scene "RoboCup.extras" (compoundType c)) as [extras|];
      [|discriminate].
    exists robots, extras. split; reflexivity. }
  destruct Hgroups as (robots & extras & Hr & He).
  destruct (roster_members c scene owner robots extras self Hr He Hnew)
    as (Hteam & F1 & F2).
  destruct (snapshot_players toInt robotsPerTeam normalize self w) as [Hf Hs].
  fold ws in Hf, Hs.
  assert (P1 : Forall (fun p => number p <> numberOf owner
                                /\ (number p <= robotsPerTeam)%Z)
                      (firstTeamPlayers self ws)).
  { rewrite Hf. apply Forall_map. eapply Forall_impl; [|exact F1].
    intros o Ho. cbv beta. rewrite newGTPlayer_number. exact Ho. }
  assert (P2 : Forall (fun p => number p <> (numberOf owner - robotsPerTeam)%Z
                                /\ (1 <= number p)%Z)
                      (secondTeamPlayers self ws)).
  { rewrite Hs. apply Forall_map. eapply Forall_impl; [|exact F2].
    intros o Ho. cbv beta in Ho |- *. rewrite newGTPlayer_number.
    destruct Ho as [Hne Hgt]. split; lia. }
  split; [eapply Forall_impl; [|exact P1]; intros p Hp; apply Hp|].
  split; [eapply Forall_impl; [|exact P2]; intros p Hp; apply Hp|].
  unfold firstTeamPlayers, secondTeamPlayers in *.
  split; intros Hown.
  - apply Hteam in Hown. rewrite Hown in *.
    split; [reflexivity|]. split; [reflexivity|].
    eapply Forall_impl; [|exact P1]. intros p Hp. apply Hp.
  - assert (Hfalse : firstTeam self = false).
    { destruct (firstTeam self); [|reflexivity].
      assert (numberOf owner <= robotsPerTeam)%Z by (apply Hteam; reflexivity). lia. }
    rewrite Hfalse in *.
    split; [reflexivity|]. split; [reflexivity|].
    eapply Forall_impl; [|exact P2]. intros p Hp. apply Hp.
Qed.

End MoreProperties.

(** ** The further properties on the sample scenes *)

(* X1 on the name of a robot of the second team *)
Lemma getNumber_after_last_dot_sample :
  lacks "." "robot21" = true
  /\ getNumber decimal_toInt (mkObject 3 ("RoboCup.robots" ++ String "." "robot21"))
     = decimal_toInt (drop_chars 5 "robot21").
Proof.
  split; [reflexivity|].
  apply (getNumber_after_last_dot decimal_toInt 3 "RoboCup.robots" "robot21").
  reflexivity.
Defined.

(* X2 on a name without a group *)
Lemma getNumber_without_dot_sample :
  lacks "." "robot7" = true
  /\ getNumber decimal_toInt (mkObject 3 "robot7") = decimal_toInt (drop_chars 5 "robot7").
Proof.
  split; [reflexivity|].
  apply (getNumber_without_dot decimal_toInt 3 "robot7"). reflexivity.
Defined.

Lemma sample_built :
  SimulatedRobot_new decimal_toInt Sample.robotsPerTeam Sample.ctrl3D
                     Sample.scene Sample.robot6 = Some Sample.built.
Proof. reflexivity. Qed.

(* X4 on [Sample.scene], built for robot6 *)
Lemma constructed_rosters_sample :
  resolveObject Sample.scene "RoboCup.robots" (compoundType Sample.ctrl3D)
  = Some [Sample.robot1; Sample.robot2; Sample.robot6]
  /\ resolveObject Sample.scene "RoboCup.extras" (compoundType Sample.ctrl3D)
     = Some [Sample.dummy1]
  /\ SimulatedRobot_new decimal_toInt Sample.robotsPerTeam Sample.ctrl3D
                        Sample.scene Sample.robot6 = Some Sample.built
  /\ Forall (fun o => getNumber decimal_toInt o <> getNumber decimal_toInt Sample.robot6
                      /\ (getNumber decimal_toInt o <= Sample.robotsPerTeam)%Z)
            (firstTeamRobots Sample.built)
  /\ (List.length (firstTeamRobots Sample.built)
      + List.length (secondTeamRobots Sample.built)
      = List.length (filter (fun o => negb (getNumber decimal_toInt o
                                            =? getNumber decimal_toInt Sample.robot6)%Z)
                            ([Sample.robot1; Sample.robot2; Sample.robot6]
                               ++ [Sample.dummy1])))%nat.
Proof.
  split; [reflexivity|]. split; [reflexivity|]. split; [exact sample_built|].
  destruct (constructed_rosters_invariant decimal_toInt Sample.robotsPerTeam
              Sample.ctrl3D Sample.scene Sample.robot6
              [Sample.robot1; Sample.robot2; Sample.robot6] [Sample.dummy1]
              Sample.built eq_refl eq_refl sample_built)
    as (_ & _ & _ & F1 & _ & _ & L).
  split; [exact F1 | exact L].
Defined.

(* X5 at [Sample.seen]: the ball one metre further after 100 ms *)
Lemma hidden_state_sample :
  let w := Sample.world Sample.ctrl3D (Some (Sample.ballAt 1)) 200 in
  let r := getWorldState decimal_toInt Sample.robotsPerTeam Sample.wrapOnce Sample.seen w in
  ball w = Some (Sample.ballAt 1)
  /\ exists gtBall,
      balls (worldState r) = [gtBall]
      /\ lastBallPosition (self' r) = position gtBall
      /\ lastBallTime (self' r) = 200%Z
      /\ (hadVelocity (self' r) = true <-> Vec3.head2 (velocity gtBall) <> Vec2.Zero).
Proof.
  intros w r. split; [reflexivity|].
  exact (hidden_state_follows_sample decimal_toInt Sample.robotsPerTeam Sample.wrapOnce
           Sample.seen w (Sample.ballAt 1) eq_refl).
Defined.

(* X6 at [Sample.seen] in a scene without a ball *)
Lemma no_ball_sample :
  let r := getWorldState decimal_toInt Sample.robotsPerTeam Sample.wrapOnce
                         Sample.seen Sample.posed in
  ball Sample.posed = None
  /\ self' r = Sample.seen /\ balls (worldState r) = [] /\ events r = []
  /\ ball' r = None.
Proof.
  intros r. split; [reflexivity|].
  exact (no_ball_no_change decimal_toInt Sample.robotsPerTeam Sample.wrapOnce
           Sample.seen Sample.posed eq_refl).
Defined.

(* X7 on [Sample.moving], third call *)
Lemma run_keeps_rosters_sample :
  exists r,
    nth_error (run decimal_toInt Sample.robotsPerTeam Sample.wrapOnce
                   Sample.fresh Sample.moving) 2 = Some r
    /\ robot (self' r) = robot Sample.fresh
    /\ firstTeam (self' r) = firstTeam Sample.fresh
    /\ robotNumber (self' r) = robotNumber Sample.fresh
    /\ firstTeamRobots (self' r) = firstTeamRobots Sample.fresh
    /\ secondTeamRobots (self' r) = secondTeamRobots Sample.fresh.
Proof.
  eexists. split; [reflexivity|].
  exact (run_keeps_rosters decimal_toInt Sample.robotsPerTeam Sample.wrapOnce
           Sample.moving Sample.fresh 2 _ eq_refl).
Defined.

(* X8 on the first two calls of [Sample.calls] *)
Lemma velocity_between_two_calls_sample :
  let w1 := Sample.world Sample.ctrl3D (Some (Sample.ballAt 0)) 100 in
  let w2 := Sample.world Sample.ctrl3D (Some (Sample.ballAt 1)) 200 in
  let r1 := getWorldState decimal_toInt Sample.robotsPerTeam Sample.wrapOnce
                          Sample.fresh w1 in
  let r2 := getWorldState decimal_toInt Sample.robotsPerTeam Sample.wrapOnce
                          (self' r1) w2 in
  is_unsigned (currentSystemTime w1) /\ is_unsigned (currentSystemTime w2)
  /\ (0 < currentSystemTime w1 < currentSystemTime w2)%Z
  /\ exists g1 g2,
      balls (worldState r1) = [g1]
      /\ balls (worldState r2) = [g2]
      /\ velocity g2
         = Vec3.div (Vec3.lscale 1000 (Vec3.sub (position g2) (position g1)))
                    (IZR (currentSystemTime w2 - currentSystemTime w1)).
Proof.
  intros w1 w2 r1 r2.
  assert (U1 : is_unsigned (currentSystemTime w1))
    by (apply sample_times_unsigned; cbn; lia).
  assert (U2 : is_unsigned (currentSystemTime w2))
    by (apply sample_times_unsigned; cbn; lia).
  assert (Ht : (0 < currentSystemTime w1 < currentSystemTime w2)%Z) by (cbn; lia).
  split; [exact U1|]. split; [exact U2|]. split; [exact Ht|].
  exact (velocity_between_two_calls decimal_toInt Sample.robotsPerTeam Sample.wrapOnce
           Sample.fresh w1 w2 (Sample.ballAt 0) (Sample.ballAt 1)
           eq_refl eq_refl U1 U2 Ht).
Defined.

(* X9: a first sample at time stamp 0, the ball one metre further at 100 ms *)
Lemma sample_at_time_zero_sample :
  let w1 := Sample.world Sample.ctrl3D (Some (Sample.ballAt 0)) 0 in
  let w2 := Sample.world Sample.ctrl3D (Some (Sample.ballAt 1)) 100 in
  let r1 := getWorldState decimal_toInt Sample.robotsPerTeam Sample.wrapOnce
                          Sample.fresh w1 in
  let r2 := getWorldState decimal_toInt Sample.robotsPerTeam Sample.wrapOnce
                          (self' r1) w2 in
  currentSystemTime w1 = 0%Z
  /\ exists g2,
      balls (worldState r2) = [g2] /\ velocity g2 = Vec3.Zero
      /\ events r2 = [] /\ curveVel (self' r2) = curveVel (self' r1).
Proof.
  intros w1 w2 r1 r2. split; [reflexivity|].
  exact (sample_at_time_zero_forgotten decimal_toInt Sample.robotsPerTeam
           Sample.wrapOnce Sample.fresh w1 w2 (Sample.ballAt 0) (Sample.ballAt 1)
           eq_refl eq_refl eq_refl).
Defined.

(* X10 at [Sample.seen], called with the clock at 50 ms *)
Lemma clock_below_last_sample :
  let w := Sample.world Sample.ctrl3D (Some (Sample.ballAt 1)) 50 in
  is_unsigned (lastBallTime Sample.seen) /\ is_unsigned (currentSystemTime w)
  /\ (currentSystemTime w < lastBallTime Sample.seen)%Z
  /\ exists gtBall,
      balls (worldState (getWorldState decimal_toInt Sample.robotsPerTeam
                                       Sample.wrapOnce Sample.seen w)) = [gtBall]
      /\ velocity gtBall
         = Vec3.div (Vec3.lscale 1000
                       (Vec3.sub (position gtBall) (lastBallPosition Sample.seen)))
                    (IZR (currentSystemTime w - lastBallTime Sample.seen + UINT_MOD))
      /\ 0 < IZR (currentSystemTime w - lastBallTime Sample.seen + UINT_MOD).
Proof.
  intros w.
  assert (U1 : is_unsigned (lastBallTime Sample.seen))
    by (apply sample_times_unsigned; cbn; lia).
  assert (U2 : is_unsigned (currentSystemTime w))
    by (apply sample_times_unsigned; cbn; lia).
  assert (Hlt : (currentSystemTime w < lastBallTime Sample.seen)%Z) by (cbn; lia).
  split; [exact U1|]. split; [exact U2|]. split; [exact Hlt|].
  exact (velocity_when_clock_below_last decimal_toInt Sample.robotsPerTeam
           Sample.wrapOnce Sample.seen w (Sample.ballAt 1) eq_refl U1 U2 Hlt).
Defined.

(* X11 for the first-team object [Sample.first] on the 2D backend *)
Lemma ball_position_frames_sample :
  let w := Sample.world Sample.ctrl2D (Some (Sample.ballAt 1)) 100 in
  let absolute := snd (getAbsoluteBallPosition w Vec2.Zero) in
  ball w = Some (Sample.ballAt 1)
  /\ exists gtBall,
      balls (worldState (getWorldState decimal_toInt Sample.robotsPerTeam
                                       Sample.wrapOnce Sample.first w)) = [gtBall]
      /\ Vec3.head2 (position gtBall)
         = (if firstTeam Sample.first then Vec2.neg absolute else absolute)
      /\ v3z (position gtBall)
         = (if is2D (controller w) then 50 else v3z (bodyPosition (Sample.ballAt 1)) * 1000).
Proof.
  intros w absolute. split; [reflexivity|].
  exact (ball_position_frames decimal_toInt Sample.robotsPerTeam Sample.wrapOnce
           Sample.first w (Sample.ballAt 1) Vec2.Zero eq_refl).
Defined.

Lemma sample_seen_sampled (x : R) :
  let w := Sample.world Sample.ctrl3D (Some (Sample.ballAt x)) 200 in
  lastBallTime Sample.seen <> 0%Z /\ lastBallTime Sample.seen <> currentSystemTime w.
Proof. split; discriminate. Qed.

(* X12 at [Sample.seen]: the ball one metre further after 100 ms *)
Lemma curve_turns_velocity_sample :
  let w := Sample.world Sample.ctrl3D (Some (Sample.ballAt 1)) 200 in
  let r := getWorldState decimal_toInt Sample.robotsPerTeam Sample.wrapOnce Sample.seen w in
  ball w = Some (Sample.ballAt 1)
  /\ is2D (controller w) = false
  /\ lastBallTime Sample.seen <> 0%Z
  /\ lastBallTime Sample.seen <> currentSystemTime w
  /\ exists velo,
      velocitiesSet r = [velo]
      /\ ball' r = Some (mkBody (bodyPosition (Sample.ballAt 1)) velo)
      /\ Vec3.head2 velo
         = Vec2.rotate (Vec3.head2 (bodyVelocity (Sample.ballAt 1))) (curveVel (self' r))
      /\ v3z velo = v3z (bodyVelocity (Sample.ballAt 1))
      /\ Vec2.norm (Vec3.head2 velo)
         = Vec2.norm (Vec3.head2 (bodyVelocity (Sample.ballAt 1))).
Proof.
  intros w r. destruct (sample_seen_sampled 1) as [N0 N1].
  split; [reflexivity|]. split; [reflexivity|]. split; [exact N0|]. split; [exact N1|].
  exact (curve_turns_velocity_only decimal_toInt Sample.robotsPerTeam Sample.wrapOnce
           Sample.seen w (Sample.ballAt 1) eq_refl eq_refl N0 N1).
Defined.

(* X13 at [Sample.seen]: the ball still at the origin 100 ms later *)
Lemma ball_at_rest_sample :
  let w := Sample.world Sample.ctrl3D (Some (Sample.ballAt 0)) 200 in
  let r := getWorldState decimal_toInt Sample.robotsPerTeam Sample.wrapOnce Sample.seen w in
  horizontalVelocities r = [Vec2.Zero]
  /\ velocitiesSet r = [bodyVelocity (Sample.ballAt 0)]
  /\ ball' r = ball w /\ rolled r = [].
Proof.
  intros w r. destruct (sample_seen_sampled 0) as [N0 N1].
  assert (Hz : horizontalVelocities r = [Vec2.Zero]).
  { destruct (call_sampled_3D decimal_toInt Sample.robotsPerTeam Sample.wrapOnce
                Sample.seen w (Sample.ballAt 0) eq_refl N0 N1 eq_refl) as (Hv & _).
    fold r in Hv. rewrite Hv. f_equal.
    unfold sampledVelocity.
    change (usub (currentSystemTime w) (lastBallTime Sample.seen)) with 100%Z.
    unfold Vec3.head2, Vec3.div, Vec3.lscale, Vec3.sub, gtBallPosition, getPosition3D,
      Vec3.scale, Vec2.Zero.
    cbn. f_equal; lra. }
  split; [exact Hz|].
  exact (ball_at_rest_left_alone decimal_toInt Sample.robotsPerTeam Sample.wrapOnce
           Sample.seen w (Sample.ballAt 0) eq_refl eq_refl N0 N1 Hz).
Defined.

(* X14 for the first sample of [Sample.fresh] *)
Lemma simulator_untouched_sample :
  let w := Sample.world Sample.ctrl3D (Some (Sample.ballAt 1)) 100 in
  let r := getWorldState decimal_toInt Sample.robotsPerTeam Sample.wrapOnce Sample.fresh w in
  lastBallTime Sample.fresh = 0%Z /\ events r = [] /\ ball' r = ball w.
Proof.
  intros w r. split; [reflexivity|].
  exact (simulator_untouched decimal_toInt Sample.robotsPerTeam Sample.wrapOnce
           Sample.fresh w (or_intror (or_intror (or_introl eq_refl)))).
Defined.

(* X15 for the first-team object [Sample.first]: the ball asked to x = 1500 *)
Lemma ball_placement_sample :
  let w := Sample.world Sample.ctrl3D (Some (Sample.ballAt 0)) 100 in
  let pos := mkVector3f 1500 (-200) 50 in
  ball w = Some (Sample.ballAt 0)
  /\ exists q,
      moveBallPerTeam Sample.first w pos true = [EvMove q; EvResetDynamics]
      /\ forall (reader : SimulatedRobot) (w' : World) (b' : Body),
          firstTeam reader = firstTeam Sample.first ->
          ball w' = Some b' -> bodyPosition b' = q ->
          exists gtBall,
            balls (worldState (getWorldState decimal_toInt Sample.robotsPerTeam
                                             Sample.wrapOnce reader w')) = [gtBall]
            /\ position gtBall
               = (if is2D (controller w') then Vec3.setZ pos 50 else pos).
Proof.
  intros w pos. split; [reflexivity|].
  exact (ball_placement_read_back decimal_toInt Sample.robotsPerTeam Sample.wrapOnce
           Sample.first w pos true (Sample.ballAt 0) eq_refl).
Defined.

(* X16 for the first-team object [Sample.first] *)
Lemma placement_twice_sample :
  let pos := mkVector3f 1000 2000 0 in
  let rot := mkVector3f 0 0 (PI / 2) in
  let once := moveRobotPerTeam Sample.wrapOnce Sample.first pos rot true false in
  let twice := moveRobotPerTeam Sample.wrapOnce Sample.first (mr_pos once) (mr_rot once)
                                (mr_changeRotation once) (mr_resetDynamics once) in
  preserves_angle Sample.wrapOnce
  /\ mr_pos twice = pos
  /\ Vec3.head2 (mr_rot twice) = Vec3.head2 rot
  /\ same_angle (v3z (mr_rot twice)) (v3z rot)
  /\ mr_changeRotation twice = true
  /\ mr_resetDynamics twice = false.
Proof.
  intros pos rot once twice. split; [exact wrapOnce_preserves|].
  exact (placement_twice Sample.wrapOnce Sample.first pos rot true false
           wrapOnce_preserves).
Defined.

(* X17 for [Sample.rolling]: three steps with a decrement of 2 mm/s *)
Lemma friction_after_steps_sample :
  let w := Sample.world Sample.ctrl2D (Some Sample.rolling) 0 in
  let d := -200 * simStepLength (controller w) / 1000 in
  is2D (controller w) = true
  /\ d <= 0
  /\ ballSpeed2D (frictionSteps 3 w (-200)) = Rmax 0 (ballSpeed2D w + INR 3 * d).
Proof.
  intros w d.
  assert (Hd : -200 * simStepLength (controller w) / 1000 <= 0) by (cbn; lra).
  split; [reflexivity|]. split; [exact Hd|].
  exact (friction_after_steps 3 w (-200) eq_refl Hd).
Defined.

(* X18 for the object built for robot6 and the scene of [Sample.posed] *)
Lemma snapshot_numbers_sample :
  let ws := worldState (getWorldState decimal_toInt Sample.robotsPerTeam Sample.wrapOnce
                                      Sample.built Sample.posed) in
  SimulatedRobot_new decimal_toInt Sample.robotsPerTeam Sample.ctrl3D
                     Sample.scene Sample.robot6 = Some Sample.built
  /\ Forall (fun p => (number p <= Sample.robotsPerTeam)%Z)
            (firstTeamPlayers Sample.built ws)
  /\ Forall (fun p => (1 <= number p)%Z) (secondTeamPlayers Sample.built ws)
  /\ ownTeamPlayers ws = secondTeamPlayers Sample.built ws
  /\ opponentTeamPlayers ws = firstTeamPlayers Sample.built ws.
Proof.
  intros ws. split; [exact sample_built|].
  destruct (snapshot_numbers_of_constructed decimal_toInt Sample.robotsPerTeam
              Sample.wrapOnce Sample.ctrl3D Sample.scene Sample.robot6 Sample.built
              Sample.posed sample_built)
    as (F1 & F2 & _ & Hsecond).
  fold ws in F1, F2, Hsecond.
  assert (Hgt : (Sample.robotsPerTeam < getNumber decimal_toInt Sample.robot6)%Z)
    by (vm_compute; reflexivity).
  destruct (Hsecond Hgt) as (Hown & Hopp & _).
  split; [exact F1|]. split; [exact F2|]. split; [exact Hown | exact Hopp].
Defined.

(* X19 on [Sample.moving], first call: the ball lies still *)
Lemma curve_zero_at_rest_sample :
  exists r,
    lastBallTime Sample.fresh = 0%Z /\ curveVel Sample.fresh = 0
    /\ Forall ball3D Sample.moving
    /\ increasing (map currentSystemTime Sample.moving)
    /\ nth_error (run decimal_toInt Sample.robotsPerTeam Sample.wrapOnce
                      Sample.fresh Sample.moving) 0 = Some r
    /\ horizontalVelocities r = [Vec2.Zero]
    /\ curveVel (self' r) = 0.
Proof.
  assert (HB : Forall ball3D Sample.moving)
    by (repeat constructor; apply sample_ball3D; lia).
  assert (HI : increasing (map currentSystemTime Sample.moving))
    by (cbn; repeat split; lia).
  destruct (call_held decimal_toInt Sample.robotsPerTeam Sample.wrapOnce Sample.fresh
              (Sample.world Sample.ctrl3D (Some (Sample.ballAt 0)) 100)
              (Sample.ballAt 0) eq_refl (or_introl eq_refl)) as (Hz & _).
  eexists. split; [reflexivity|]. split; [reflexivity|].
  split; [exact HB|]. split; [exact HI|]. split; [reflexivity|].
  split; [exact Hz|].
  exact (curve_zero_at_rest_along_run decimal_toInt Sample.robotsPerTeam Sample.wrapOnce
           Sample.fresh Sample.moving eq_refl eq_refl HB HI 0 _ eq_refl Hz).
Defined.
